(** * WalletPay: the asynchronous API client

    A shallow embedding of [WalletPay/AsyncWalletPayAPI.py] and the
    properties of its request executor and of its four public operations.

    Python values are an inductive type whose dictionaries are finite maps;
    exceptions are values of a sum type; the HTTP exchange is an explicit
    oracle together with the log of the requests that were sent. *)

From Stdlib Require Import ZArith String Ascii List Lia.
From Stdlib Require Import Floats.PrimFloat Floats.SpecFloat Floats.FloatOps.
From Stdlib Require Import Numbers.DecimalString Numbers.DecimalPos Numbers.DecimalZ.
From stdpp Require Import gmap strings list fin_maps.

Set Warnings "-register-all".

Local Open Scope string_scope.
Local Open Scope Z_scope.
Local Open Scope list_scope.

(** ** Python values *)

(** The values that [json.loads] produces and that [json.dumps] accepts:
    [None], booleans, integers, binary64 floats, strings, lists and
    dictionaries with string keys.  Strings are sequences of 8-bit
    characters, so the model is exact on ASCII text. *)
Inductive pyval : Type :=
| PNone
| PBool (b : bool)
| PInt (z : Z)
| PFloat (f : float)
| PStr (s : string)
| PList (l : list pyval)
| PDict (d : gmap string pyval).

(** Modelled from the spec: the exception classes of [WalletPay.types] are
    imported by the client but declared elsewhere.  The base failure carries
    a message; each of the four subtypes carries the raw response payload
    and a message, in the order in which the client passes them.  The other
    constructors are the built-in errors that the client can run into, and
    what the HTTP library raises. *)
Inductive py_exn : Type :=
| WalletPayException (message : pyval)
| CreateOrderException (response_data : pyval) (message : string)
| GetOrderPreviewException (response_data : pyval) (message : string)
| GetOrderListException (response_data : pyval) (message : string)
| GetOrderAmountException (response_data : pyval) (message : string)
| AttributeError
| TypeError
| ValueError
| OverflowError
| ClientError (description : string)
| OtherError (description : string).

(** The class test [isinstance(e, WalletPayException)]: the base failure and
    its four subtypes. *)
Definition is_WalletPayException (e : py_exn) : bool :=
  match e with
  | WalletPayException _
  | CreateOrderException _ _
  | GetOrderPreviewException _ _
  | GetOrderListException _ _
  | GetOrderAmountException _ _ => true
  | _ => false
  end.

(** A Python expression either raises or yields a value. *)
Definition result (A : Type) : Type := (py_exn + A)%type.

Abbreviation Raise := (@inl py_exn _).
Abbreviation Ok := (@inr py_exn _).

Definition result_bind {A B : Type} (r : result A) (k : A -> result B) : result B :=
  match r with
  | inl e => inl e
  | inr a => k a
  end.

(** [bool(v)], the test of [if v:]. A float is false when it compares equal
    to zero, so [-0.0] is false and a NaN is true. *)
Definition truthy (v : pyval) : bool :=
  match v with
  | PNone => false
  | PBool b => b
  | PInt z => negb (z =? 0)%Z
  | PFloat f => negb (PrimFloat.eqb f PrimFloat.zero)
  | PStr s => negb (String.eqb s "")
  | PList l => match l with [] => false | _ :: _ => true end
  | PDict d => negb (bool_decide (d = ∅))
  end.

(** [v == s] for a string literal [s]: only a string with the same characters
    is equal to it. *)
Definition py_eq_str (v : pyval) (s : string) : bool :=
  match v with
  | PStr s' => String.eqb s' s
  | _ => false
  end.

(** [v.get(key, default)]: [dict] is the only one of these types with a
    [get] attribute. *)
Definition py_get (v : pyval) (key : string) (default : pyval) : result pyval :=
  match v with
  | PDict d =>
      Ok (match d !! key with Some x => x | None => default end)
  | _ => Raise AttributeError
  end.

(** ** The built-in [int] *)

(** [Py_ISSPACE] on an 8-bit character. *)
Definition is_space (c : ascii) : bool :=
  let n := N_of_ascii c in
  ((9 <=? n) && (n <=? 13) || (n =? 32))%N.

Definition digit_value (c : ascii) : option Z :=
  let n := N_of_ascii c in
  if ((48 <=? n) && (n <=? 57))%N then Some (Z.of_N n - 48) else None.

Fixpoint skip_spaces (s : list ascii) : list ascii :=
  match s with
  | c :: s' => if is_space c then skip_spaces s' else s
  | [] => []
  end.

(** The digits of a decimal literal after its first digit: single
    underscores are allowed between digits; the scan stops at the first
    character that is neither. [None] when an underscore is not followed by
    a digit. The result is the value, the number of digits and the rest. *)
Fixpoint scan_digits (acc : Z) (count : nat) (s : list ascii)
  : option (Z * nat * list ascii) :=
  match s with
  | [] => Some (acc, count, [])
  | c :: s' =>
      match digit_value c with
      | Some d => scan_digits (10 * acc + d) (S count) s'
      | None =>
          if Ascii.eqb c "_"%char then
            match s' with
            | c' :: s'' =>
                match digit_value c' with
                | Some d => scan_digits (10 * acc + d) (S count) s''
                | None => None
                end
            | [] => None
            end
          else Some (acc, count, s)
      end
  end.

(** CPython's default limit on the number of digits that [int] converts. *)
Definition int_max_str_digits : nat := 4300.

(** [int(s)] on a string, in base ten: optional white space, an optional
    sign, digits, optional white space. *)
Definition int_of_str (s : string) : result Z :=
  let s1 := skip_spaces (list_ascii_of_string s) in
  let '(negative, s2) :=
    match s1 with
    | c :: s' =>
        if Ascii.eqb c "+"%char then (false, s')
        else if Ascii.eqb c "-"%char then (true, s')
        else (false, s1)
    | [] => (false, s1)
    end in
  match s2 with
  | c :: s3 =>
      match digit_value c with
      | Some d =>
          match scan_digits d 1 s3 with
          | Some (n, count, rest) =>
              match skip_spaces rest with
              | [] =>
                  if (int_max_str_digits <? count)%nat then Raise ValueError
                  else Ok (if negative then - n else n)
              | _ :: _ => Raise ValueError
              end
          | None => Raise ValueError
          end
      | None => Raise ValueError
      end
  | [] => Raise ValueError
  end.

(** [int(f)] on a float truncates towards zero; it rejects infinities and
    NaNs. *)
Definition int_of_float (f : float) : result Z :=
  match Prim2SF f with
  | S754_zero _ => Ok 0
  | S754_infinity _ => Raise OverflowError
  | S754_nan => Raise ValueError
  | S754_finite negative m e =>
      let magnitude := Z.shiftl (Z.pos m) e in
      Ok (if negative then - magnitude else magnitude)
  end.

Definition py_int (v : pyval) : result Z :=
  match v with
  | PNone => Raise TypeError
  | PBool b => Ok (if b then 1 else 0)
  | PInt z => Ok z
  | PFloat f => int_of_float f
  | PStr s => int_of_str s
  | PList _ => Raise TypeError
  | PDict _ => Raise TypeError
  end.

(** [str(z)], which is what an f-string interpolates for an integer. *)
Definition str_of_int (z : Z) : string :=
  NilZero.string_of_int (Z.to_int z).


(** ** The HTTP exchange *)

(** What [session.post(url, headers=headers, json=data)] and
    [session.get(url, headers=headers)] put on the wire. *)
Record http_request : Type := {
  req_method : string;
  req_url : string;
  req_headers : gmap string string;
  req_json : option pyval
}.

(** What comes back: the HTTP library raises, or there is a response with
    its [status] and the value of [await response.json()]. *)
Inductive http_outcome : Type :=
| HttpRaises (e : py_exn)
| HttpResponse (status : Z) (body : pyval).

Definition network : Type := http_request -> http_outcome.

(** A coroutine of the client: it reads the network, appends the requests it
    sends to the log, and raises or returns. *)
Definition io (A : Type) : Type :=
  network -> list http_request -> list http_request * result A.

Definition ret {A : Type} (a : A) : io A :=
  fun _ sent => (sent, Ok a).

Definition raise {A : Type} (e : py_exn) : io A :=
  fun _ sent => (sent, Raise e).

Definition lift {A : Type} (r : result A) : io A :=
  fun _ sent => (sent, r).

Definition bind {A B : Type} (m : io A) (k : A -> io B) : io B :=
  fun net sent =>
    match m net sent with
    | (sent', inr a) => k a net sent'
    | (sent', inl e) => (sent', inl e)
    end.

Declare Scope io_scope.
Delimit Scope io_scope with io.
Bind Scope io_scope with io.

Notation "x <- m ;; k" := (bind m (fun x => k))
  (at level 100, m at next level, right associativity) : io_scope.

(** [try: m except C as e: handler], where [handler e] is [None] when [e] is
    not an instance of [C]. *)
Definition try_except {A : Type} (m : io A) (handler : py_exn -> option (io A)) : io A :=
  fun net sent =>
    match m net sent with
    | (sent', inl e) =>
        match handler e with
        | Some h => h net sent'
        | None => (sent', inl e)
        end
    | (sent', inr a) => (sent', inr a)
    end.

(** One exchange: the request is logged, the response object is reduced to
    the pair of its status and its parsed body. *)
Definition exchange (req : http_request) : io (Z * pyval) :=
  fun net sent =>
    (sent ++ [req],
     match net req with
     | HttpRaises e => Raise e
     | HttpResponse status body => Ok (status, body)
     end).

Definition session_post (url : string) (headers : gmap string string) (json : pyval)
  : io (Z * pyval) :=
  exchange {| req_method := "POST"; req_url := url;
              req_headers := headers; req_json := Some json |}.

Definition session_get (url : string) (headers : gmap string string) : io (Z * pyval) :=
  exchange {| req_method := "GET"; req_url := url;
              req_headers := headers; req_json := None |}.

(** The requests that [m] sends, and what it raises or returns, from an
    empty log. *)
Definition sent_by {A : Type} (m : io A) (net : network) : list http_request :=
  fst (m net []).

Definition outcome {A : Type} (m : io A) (net : network) : result A :=
  snd (m net []).

(** ** The client *)

Record AsyncWalletPayAPI : Type := { api_key : string }.

Definition BASE_URL : string := "https://pay.wallet.tg/wpay/store-api/v1/".

Definition _make_request (self : AsyncWalletPayAPI) (method endpoint : string) (data : pyval)
  : io pyval :=
  let headers : gmap string string :=
    {[ "Wpay-Store-Api-Key" := api_key self;
       "Content-Type" := "application/json";
       "Accept" := "application/json" ]} in
  let url := BASE_URL +:+ endpoint in
  try_except
    (response <-
        (if String.eqb method "POST" then session_post url headers data
         else if String.eqb method "GET" then session_get url headers
         else raise (WalletPayException (PStr "Invalid HTTP method")));;
     let '(status, response_data) := response in
     if negb (status =? 200) then
       message <- lift (py_get response_data "message" (PStr "Unknown error"));;
       raise (WalletPayException message)
     else ret response_data)%io
    (fun e =>
       match e with
       | ClientError description =>
           Some (raise (WalletPayException (PStr ("API request failed: " +:+ description))))
       | _ => None
       end).

(** ** The public operations *)

Fixpoint mapM {A B : Type} (f : A -> result B) (l : list A) : result (list B) :=
  match l with
  | [] => Ok []
  | x :: l' =>
      result_bind (f x) (fun y =>
      result_bind (mapM f l') (fun ys => Ok (y :: ys)))
  end.

Section Operations.

(** The result classes [OrderPreview] and [OrderReconciliationItem] of
    [WalletPay.types] are declared outside this module: their constructors,
    which take the parsed JSON and may raise, are parameters. *)
Context {OrderPreviewT OrderReconciliationItemT : Type}.
Variable OrderPreview : pyval -> result OrderPreviewT.
Variable OrderReconciliationItem : pyval -> result OrderReconciliationItemT.

(** A dictionary iterates over its keys in insertion order, which a finite
    map does not record: the order is a parameter. *)
Variable dict_order : gmap string pyval -> list string.

(** The elements that [for x in v] goes through. *)
Definition py_iter (v : pyval) : result (list pyval) :=
  match v with
  | PList l => Ok l
  | PStr s => Ok (map (fun c => PStr (String c "")) (list_ascii_of_string s))
  | PDict d => Ok (map PStr (dict_order d))
  | _ => Raise TypeError
  end.

Definition create_order (self : AsyncWalletPayAPI)
    (amount currency_code description external_id timeout_seconds
     customer_telegram_user_id return_url fail_return_url custom_data : pyval)
  : io OrderPreviewT :=
  let data : gmap string pyval :=
    {[ "amount" := PDict {[ "currencyCode" := currency_code; "amount" := amount ]};
       "description" := description;
       "externalId" := external_id;
       "timeoutSeconds" := timeout_seconds;
       "customerTelegramUserId" := customer_telegram_user_id ]} in
  let data := if truthy return_url then <["returnUrl" := return_url]> data else data in
  let data := if truthy fail_return_url then <["failReturnUrl" := fail_return_url]> data else data in
  let data := if truthy custom_data then <["customData" := custom_data]> data else data in
  (response_data <- _make_request self "POST" "order" (PDict data);;
   status <- lift (py_get response_data "status" PNone);;
   if py_eq_str status "SUCCESS" then
     data <- lift (py_get response_data "data" PNone);;
     lift (OrderPreview data)
   else raise (CreateOrderException response_data "Failed to create order"))%io.

Definition get_order_preview (self : AsyncWalletPayAPI) (order_id : string)
  : io OrderPreviewT :=
  (response_data <- _make_request self "GET" ("order/preview?id=" +:+ order_id) PNone;;
   status <- lift (py_get response_data "status" PNone);;
   if py_eq_str status "SUCCESS" then
     data <- lift (py_get response_data "data" PNone);;
     lift (OrderPreview data)
   else raise (GetOrderPreviewException response_data "Failed to retrieve order preview"))%io.

Definition get_order_list (self : AsyncWalletPayAPI) (offset count : Z)
  : io (list OrderReconciliationItemT) :=
  (response_data <-
     _make_request self "GET"
       ("reconciliation/order-list?offset=" +:+ str_of_int offset
        +:+ "&count=" +:+ str_of_int count) PNone;;
   status <- lift (py_get response_data "status" PNone);;
   if py_eq_str status "SUCCESS" then
     data <- lift (py_get response_data "data" (PDict ∅));;
     orders_data <- lift (py_get data "items" (PList []));;
     elements <- lift (py_iter orders_data);;
     lift (mapM OrderReconciliationItem elements)
   else raise (GetOrderListException response_data "Failed to retrieve order list"))%io.

Definition get_order_amount (self : AsyncWalletPayAPI) : io Z :=
  (response_data <- _make_request self "GET" "reconciliation/order-amount" PNone;;
   status <- lift (py_get response_data "status" PNone);;
   if py_eq_str status "SUCCESS" then
     data <- lift (py_get response_data "data" (PDict ∅));;
     total <- lift (py_get data "totalAmount" PNone);;
     lift (py_int total)
   else raise (GetOrderAmountException response_data "Failed to retrieve order amount"))%io.

End Operations.

(** ** Vocabulary of the proofs *)

(** The request that the executor sends when the method is supported, and
    how it reads what comes back.  Lemma [_make_request_supported] relates
    both to the executor. *)
Definition wire_request (self : AsyncWalletPayAPI) (method endpoint : string) (data : pyval)
  : http_request :=
  {| req_method := method;
     req_url := BASE_URL +:+ endpoint;
     req_headers := {[ "Wpay-Store-Api-Key" := api_key self;
                       "Content-Type" := "application/json";
                       "Accept" := "application/json" ]};
     req_json := if String.eqb method "POST" then Some data else None |}.

Definition read_outcome (o : http_outcome) : result pyval :=
  match o with
  | HttpRaises (ClientError description) =>
      Raise (WalletPayException (PStr ("API request failed: " +:+ description)))
  | HttpRaises e => Raise e
  | HttpResponse status body =>
      if (status =? 200) then Ok body
      else result_bind (py_get body "message" (PStr "Unknown error"))
             (fun message => Raise (WalletPayException message))
  end.

(** The HTTP call of [m] is answered by [o]: every request that [m] sends
    on the network [net] gets this outcome. *)
Definition answered {A : Type} (m : io A) (net : network) (o : http_outcome) : Prop :=
  Forall (fun req => net req = o) (sent_by m net).

(** The dictionary that [create_order] has built when it calls the
    executor. *)
Definition order_data
    (amount currency_code description external_id timeout_seconds
     customer_telegram_user_id return_url fail_return_url custom_data : pyval)
  : gmap string pyval :=
  let data : gmap string pyval :=
    {[ "amount" := PDict {[ "currencyCode" := currency_code; "amount" := amount ]};
       "description" := description;
       "externalId" := external_id;
       "timeoutSeconds" := timeout_seconds;
       "customerTelegramUserId" := customer_telegram_user_id ]} in
  let data := if truthy return_url then <["returnUrl" := return_url]> data else data in
  let data := if truthy fail_return_url then <["failReturnUrl" := fail_return_url]> data else data in
  if truthy custom_data then <["customData" := custom_data]> data else data.

(** What an operation makes of the envelope that the executor returns, when
    [on_success] is its success branch and [failure] builds its exception. *)
Definition read_envelope {A : Type}
    (on_success : pyval -> result A) (failure : pyval -> string -> py_exn)
    (message : string) (response_data : pyval) : result A :=
  result_bind (py_get response_data "status" PNone) (fun status =>
    if py_eq_str status "SUCCESS" then on_success response_data
    else Raise (failure response_data message)).


(** ** Sample inputs *)

(** A client, a server that gives the same answer to every request, result
    classes that keep the JSON they are built from, and the iteration order
    that lists the keys of a dictionary as the finite map enumerates them. *)
Definition sample_client : AsyncWalletPayAPI := {| api_key := "secret" |}.

Definition sample_network (status : Z) (body : pyval) : network :=
  fun _ => HttpResponse status body.

Definition keep_json (v : pyval) : result pyval := Ok v.

Definition enumerated_keys (d : gmap string pyval) : list string :=
  (map_to_list d).*1.

Definition failed_envelope : gmap string pyval :=
  {[ "status" := PStr "FAIL"; "message" := PStr "bad request" ]}.

Definition lowercase_envelope : gmap string pyval :=
  {[ "status" := PStr "success"; "data" := PDict {[ "totalAmount" := PInt 7 ]} ]}.

Definition amount_envelope : gmap string pyval :=
  {[ "status" := PStr "SUCCESS"; "data" := PDict {[ "totalAmount" := PStr "42" ]} ]}.

Definition no_total_envelope : gmap string pyval :=
  {[ "status" := PStr "SUCCESS"; "data" := PDict {[ "currency" := PStr "USD" ]} ]}.

Definition list_envelope : gmap string pyval :=
  {[ "status" := PStr "SUCCESS";
     "data" := PDict {[ "items" := PList [PDict {[ "id" := PInt 1 ]};
                                         PDict {[ "id" := PInt 2 ]}] ]} ]}.

(** ** The constructor, and further vocabulary *)

(** [AsyncWalletPayAPI(api_key)]: the key is all that a client holds. *)
Definition __init__ (api_key : string) : AsyncWalletPayAPI :=
  {| api_key := api_key |}.


(** A server whose HTTP exchanges all end in the exception [e]. *)
Definition failing_network (e : py_exn) : network :=
  fun _ => HttpRaises e.

(** A result class whose constructor requires an "id" in a JSON object, as
    a direct structural mapping does. *)
Definition needs_id (v : pyval) : result pyval :=
  match v with
  | PDict d =>
      match d !! "id" with
      | Some x => Ok x
      | None => Raise (OtherError "KeyError: 'id'")
      end
  | _ => Raise TypeError
  end.

Definition preview_envelope : gmap string pyval :=
  {[ "status" := PStr "SUCCESS"; "data" := PDict {[ "id" := PStr "o1" ]} ]}.

Definition bare_envelope : gmap string pyval :=
  {[ "status" := PStr "SUCCESS" ]}.

Definition mixed_envelope : gmap string pyval :=
  {[ "status" := PStr "SUCCESS";
     "data" := PDict {[ "items" := PList [PDict {[ "id" := PInt 1 ]};
                                         PDict {[ "name" := PStr "x" ]};
                                         PDict {[ "id" := PInt 3 ]}] ]} ]}.

Definition null_items_envelope : gmap string pyval :=
  {[ "status" := PStr "SUCCESS"; "data" := PDict {[ "items" := PNone ]} ]}.

Definition fraction_envelope : gmap string pyval :=
  {[ "status" := PStr "SUCCESS"; "data" := PDict {[ "totalAmount" := PStr "42.5" ]} ]}.

Definition float_envelope : gmap string pyval :=
  {[ "status" := PStr "SUCCESS"; "data" := PDict {[ "totalAmount" := PFloat 42.5 ]} ]}.

(** * Properties *)

(** ** Python values *)

Lemma py_eq_str_true (v : pyval) (s : string) :
  py_eq_str v s = true <-> v = PStr s.
Proof.
  destruct v; simpl; try (split; [discriminate | discriminate]).
  rewrite String.eqb_eq. split; [intros -> | intros [= ->]]; reflexivity.
Qed.

Lemma py_eq_str_status (env : gmap string pyval) (s : string) :
  env !! "status" ≠ Some (PStr s) ->
  py_eq_str (match env !! "status" with Some x => x | None => PNone end) s = false.
Proof.
  intros Hne. apply not_true_is_false. rewrite py_eq_str_true.
  destruct (env !! "status") as [x|]; [intros -> | discriminate ].
  now apply Hne.
Qed.

Lemma read_envelope_failure {A : Type}
    (on_success : pyval -> result A) (failure : pyval -> string -> py_exn)
    (message : string) (env : gmap string pyval) :
  env !! "status" ≠ Some (PStr "SUCCESS") ->
  read_envelope on_success failure message (PDict env) =
    Raise (failure (PDict env) message).
Proof.
  intros Hne. unfold read_envelope; simpl.
  now rewrite py_eq_str_status.
Qed.

Lemma read_envelope_success {A : Type}
    (on_success : pyval -> result A) (failure : pyval -> string -> py_exn)
    (message : string) (env : gmap string pyval) :
  env !! "status" = Some (PStr "SUCCESS") ->
  read_envelope on_success failure message (PDict env) = on_success (PDict env).
Proof.
  intros Heq. unfold read_envelope; simpl. now rewrite Heq.
Qed.

Lemma mapM_Forall2 {A B : Type} (f : A -> result B) (l : list A) (l' : list B) :
  Forall2 (fun x y => f x = Ok y) l l' -> mapM f l = Ok l'.
Proof.
  induction 1 as [| x y l l' Hxy _ IH]; simpl.
  - reflexivity.
  - rewrite Hxy, IH. reflexivity.
Qed.

(** *** [int] reads back what [str] prints *)







Lemma string_of_uint_nonnil (d : Decimal.uint) :
  d <> Decimal.Nil -> NilZero.string_of_uint d = NilEmpty.string_of_uint d.
Proof.
  destruct d; [congruence | reflexivity ..].
Qed.


(** ** The request executor *)

Section Executor.

Variable self : AsyncWalletPayAPI.
Variables method endpoint : string.
Variable data : pyval.
Variable net : network.

Lemma _make_request_supported (sent : list http_request) :
  method = "POST" \/ method = "GET" ->
  _make_request self method endpoint data net sent =
  (sent ++ [wire_request self method endpoint data],
   read_outcome (net (wire_request self method endpoint data))).
Proof.
  intros [-> | ->]; unfold _make_request, try_except, bind, wire_request; simpl;
    unfold session_post, session_get, exchange;
    (destruct (net _) as [e | status body]; simpl;
     [ destruct e; reflexivity
     | destruct (status =? 200); simpl; [reflexivity |];
       unfold lift; destruct body; reflexivity ]).
Qed.

Lemma _make_request_unsupported (sent : list http_request) :
  method <> "POST" -> method <> "GET" ->
  _make_request self method endpoint data net sent =
  (sent, Raise (WalletPayException (PStr "Invalid HTTP method"))).
Proof.
  intros HP HG. apply String.eqb_neq in HP, HG.
  unfold _make_request, try_except, bind. rewrite HP, HG. reflexivity.
Qed.

Lemma _make_request_sent (req : http_request) :
  In req (sent_by (_make_request self method endpoint data) net) ->
  (method = "POST" \/ method = "GET") /\ req = wire_request self method endpoint data.
Proof.
  unfold sent_by. intros Hin.
  destruct (String.eqb_spec method "POST") as [HP | HP];
    [| destruct (String.eqb_spec method "GET") as [HG | HG]].
  - rewrite _make_request_supported in Hin by auto.
    destruct Hin as [<- | []]. auto.
  - rewrite _make_request_supported in Hin by auto.
    destruct Hin as [<- | []]. auto.
  - rewrite _make_request_unsupported in Hin by assumption. destruct Hin.
Qed.

(** C7: with a method other than "POST" and "GET" the executor raises
    [WalletPayException("Invalid HTTP method")] and the log of requests is
    the one it started from, whatever the network is: nothing was sent. *)
Theorem invalid_method_raises_before_any_call (sent : list http_request) :
  method <> "POST" -> method <> "GET" ->
  _make_request self method endpoint data net sent =
    (sent, Raise (WalletPayException (PStr "Invalid HTTP method")))
  /\ sent_by (_make_request self method endpoint data) net = [].
Proof.
  intros HP HG. unfold sent_by.
  rewrite !_make_request_unsupported by assumption. split; reflexivity.
Qed.


(** C8: every request that the executor performs goes to the fixed base URL
    followed by the endpoint, and its headers are exactly three: the API key
    of the client under "Wpay-Store-Api-Key", and "application/json" under
    both "Content-Type" and "Accept".  With "POST" or "GET" there is exactly
    one such request. *)
Theorem request_url_and_headers :
  (forall req : http_request,
     In req (sent_by (_make_request self method endpoint data) net) ->
     req_url req = "https://pay.wallet.tg/wpay/store-api/v1/" +:+ endpoint
     /\ size (req_headers req) = 3%nat
     /\ req_headers req !! "Wpay-Store-Api-Key" = Some (api_key self)
     /\ req_headers req !! "Content-Type" = Some "application/json"
     /\ req_headers req !! "Accept" = Some "application/json")
  /\ (method = "POST" \/ method = "GET" ->
      exists req : http_request,
        sent_by (_make_request self method endpoint data) net = [req]
        /\ req_method req = method).
Proof.
  split.
  - intros req Hin. destruct (_make_request_sent _ Hin) as [_ ->].
    unfold wire_request; simpl. repeat split; reflexivity.
  - intros Hm. exists (wire_request self method endpoint data).
    unfold sent_by. rewrite _make_request_supported by assumption.
    split; reflexivity.
Qed.

(** The other outcomes of an exchange.  Status 200 hands the parsed body to
    the caller as it is; an [aiohttp.ClientError] is turned into the generic
    failure; a body that is not a JSON object has no [get], so that with a
    status other than 200 the executor runs into [AttributeError]. *)

Lemma status_200_returns_body (req : http_request) (body : pyval) :
  In req (sent_by (_make_request self method endpoint data) net) ->
  net req = HttpResponse 200 body ->
  outcome (_make_request self method endpoint data) net = Ok body.
Proof.
  intros Hin Hnet. destruct (_make_request_sent _ Hin) as [Hm ->].
  unfold outcome. rewrite _make_request_supported by assumption.
  now rewrite Hnet.
Qed.

Lemma client_error_is_wrapped (req : http_request) (description : string) :
  In req (sent_by (_make_request self method endpoint data) net) ->
  net req = HttpRaises (ClientError description) ->
  outcome (_make_request self method endpoint data) net =
    Raise (WalletPayException (PStr ("API request failed: " +:+ description))).
Proof.
  intros Hin Hnet. destruct (_make_request_sent _ Hin) as [Hm ->].
  unfold outcome. rewrite _make_request_supported by assumption.
  now rewrite Hnet.
Qed.

Lemma non_200_without_object (req : http_request) (status : Z) (body : pyval) :
  In req (sent_by (_make_request self method endpoint data) net) ->
  net req = HttpResponse status body ->
  status <> 200 ->
  (forall env : gmap string pyval, body <> PDict env) ->
  outcome (_make_request self method endpoint data) net = Raise AttributeError.
Proof.
  intros Hin Hnet Hstatus Hbody. destruct (_make_request_sent _ Hin) as [Hm ->].
  unfold outcome. rewrite _make_request_supported by assumption.
  rewrite Hnet. simpl. apply Z.eqb_neq in Hstatus. rewrite Hstatus.
  destruct body; try reflexivity. now destruct (Hbody d).
Qed.

End Executor.

(** ** The public operations *)

Section PublicOperations.

Context {OrderPreviewT OrderReconciliationItemT : Type}.
Variable OrderPreview : pyval -> result OrderPreviewT.
Variable OrderReconciliationItem : pyval -> result OrderReconciliationItemT.
Variable dict_order : gmap string pyval -> list string.

Variable self : AsyncWalletPayAPI.
Variable net : network.

(** Each operation sends one request and then works on the outcome alone. *)

Ltac run_operation :=
  unfold bind; cbv zeta;
  rewrite _make_request_supported by auto;
  unfold read_envelope, lift, raise;
  repeat (simpl;
          match goal with
          | |- context [match ?x with _ => _ end] => destruct x
          | |- context [if ?x then _ else _] => destruct x
          end);
  reflexivity.

Lemma create_order_run
    (amount currency_code description external_id timeout_seconds
     customer_telegram_user_id return_url fail_return_url custom_data : pyval)
    (sent : list http_request) :
  let req := wire_request self "POST" "order"
               (PDict (order_data amount currency_code description external_id
                         timeout_seconds customer_telegram_user_id
                         return_url fail_return_url custom_data)) in
  create_order OrderPreview self amount currency_code description external_id
    timeout_seconds customer_telegram_user_id return_url fail_return_url custom_data
    net sent =
  (sent ++ [req],
   result_bind (read_outcome (net req))
     (read_envelope
        (fun response_data => result_bind (py_get response_data "data" PNone) OrderPreview)
        CreateOrderException "Failed to create order")).
Proof.
  unfold create_order, order_data. cbv zeta.
  set (body := if truthy custom_data then _ else _). clearbody body.
  run_operation.
Qed.

Lemma get_order_preview_run (order_id : string) (sent : list http_request) :
  let req := wire_request self "GET" ("order/preview?id=" +:+ order_id) PNone in
  get_order_preview OrderPreview self order_id net sent =
  (sent ++ [req],
   result_bind (read_outcome (net req))
     (read_envelope
        (fun response_data => result_bind (py_get response_data "data" PNone) OrderPreview)
        GetOrderPreviewException "Failed to retrieve order preview")).
Proof.
  unfold get_order_preview. cbv zeta.
  generalize ("order/preview?id=" +:+ order_id). intros endpoint.
  run_operation.
Qed.

Lemma get_order_list_run (offset count : Z) (sent : list http_request) :
  let req := wire_request self "GET"
               ("reconciliation/order-list?offset=" +:+ str_of_int offset
                +:+ "&count=" +:+ str_of_int count) PNone in
  get_order_list OrderReconciliationItem dict_order self offset count net sent =
  (sent ++ [req],
   result_bind (read_outcome (net req))
     (read_envelope
        (fun response_data =>
           result_bind (py_get response_data "data" (PDict ∅)) (fun data =>
           result_bind (py_get data "items" (PList [])) (fun orders_data =>
           result_bind (py_iter dict_order orders_data) (mapM OrderReconciliationItem))))
        GetOrderListException "Failed to retrieve order list")).
Proof.
  unfold get_order_list. cbv zeta.
  generalize ("reconciliation/order-list?offset=" +:+ str_of_int offset
              +:+ "&count=" +:+ str_of_int count). intros endpoint.
  unfold bind. rewrite _make_request_supported by auto.
  destruct (read_outcome _) as [e | response_data]; simpl; [reflexivity |].
  unfold read_envelope, lift, raise.
  destruct (py_get response_data "status" PNone) as [e | status]; simpl; [reflexivity |].
  destruct (py_eq_str status "SUCCESS"); [| reflexivity].
  destruct (py_get response_data "data" (PDict ∅)) as [e | d]; simpl; [reflexivity |].
  destruct (py_get d "items" (PList [])) as [e | orders_data]; simpl; [reflexivity |].
  destruct (py_iter dict_order orders_data); reflexivity.
Qed.

Lemma get_order_amount_run (sent : list http_request) :
  let req := wire_request self "GET" "reconciliation/order-amount" PNone in
  get_order_amount self net sent =
  (sent ++ [req],
   result_bind (read_outcome (net req))
     (read_envelope
        (fun response_data =>
           result_bind (py_get response_data "data" (PDict ∅)) (fun data =>
           result_bind (py_get data "totalAmount" PNone) py_int))
        GetOrderAmountException "Failed to retrieve order amount")).
Proof.
  unfold get_order_amount. cbv zeta.
  unfold bind. rewrite _make_request_supported by auto.
  destruct (read_outcome _) as [e | response_data]; simpl; [reflexivity |].
  unfold read_envelope, lift, raise.
  destruct (py_get response_data "status" PNone) as [e | status]; simpl; [reflexivity |].
  destruct (py_eq_str status "SUCCESS"); [| reflexivity].
  destruct (py_get response_data "data" (PDict ∅)) as [e | d]; simpl; [reflexivity |].
  destruct (py_get d "totalAmount" PNone); reflexivity.
Qed.

(** When the call is answered with status 200, the outcome of an operation
    is what it makes of the envelope. *)

Lemma answered_one {A : Type} (m : io A) (req : http_request) (o : http_outcome) :
  sent_by m net = [req] -> answered m net o -> net req = o.
Proof.
  unfold answered. intros ->. now inversion 1.
Qed.

Lemma create_order_200
    (amount currency_code description external_id timeout_seconds
     customer_telegram_user_id return_url fail_return_url custom_data : pyval)
    (body : pyval) :
  answered (create_order OrderPreview self amount currency_code description external_id
              timeout_seconds customer_telegram_user_id return_url fail_return_url
              custom_data) net (HttpResponse 200 body) ->
  outcome (create_order OrderPreview self amount currency_code description external_id
             timeout_seconds customer_telegram_user_id return_url fail_return_url
             custom_data) net =
  read_envelope
    (fun response_data => result_bind (py_get response_data "data" PNone) OrderPreview)
    CreateOrderException "Failed to create order" body.
Proof.
  intros Hnet. eapply answered_one in Hnet;
    [| unfold sent_by; rewrite create_order_run; reflexivity].
  unfold outcome. rewrite create_order_run. cbv zeta. simpl snd.
  now rewrite Hnet.
Qed.

Lemma get_order_preview_200 (order_id : string) (body : pyval) :
  answered (get_order_preview OrderPreview self order_id) net (HttpResponse 200 body) ->
  outcome (get_order_preview OrderPreview self order_id) net =
  read_envelope
    (fun response_data => result_bind (py_get response_data "data" PNone) OrderPreview)
    GetOrderPreviewException "Failed to retrieve order preview" body.
Proof.
  intros Hnet. eapply answered_one in Hnet;
    [| unfold sent_by; rewrite get_order_preview_run; reflexivity].
  unfold outcome. rewrite get_order_preview_run. cbv zeta. simpl snd.
  now rewrite Hnet.
Qed.

Lemma get_order_list_200 (offset count : Z) (body : pyval) :
  answered (get_order_list OrderReconciliationItem dict_order self offset count) net
    (HttpResponse 200 body) ->
  outcome (get_order_list OrderReconciliationItem dict_order self offset count) net =
  read_envelope
    (fun response_data =>
       result_bind (py_get response_data "data" (PDict ∅)) (fun data =>
       result_bind (py_get data "items" (PList [])) (fun orders_data =>
       result_bind (py_iter dict_order orders_data) (mapM OrderReconciliationItem))))
    GetOrderListException "Failed to retrieve order list" body.
Proof.
  intros Hnet. eapply answered_one in Hnet;
    [| unfold sent_by; rewrite get_order_list_run; reflexivity].
  unfold outcome. rewrite get_order_list_run. cbv zeta. simpl snd.
  now rewrite Hnet.
Qed.

Lemma get_order_amount_200 (body : pyval) :
  answered (get_order_amount self) net (HttpResponse 200 body) ->
  outcome (get_order_amount self) net =
  read_envelope
    (fun response_data =>
       result_bind (py_get response_data "data" (PDict ∅)) (fun data =>
       result_bind (py_get data "totalAmount" PNone) py_int))
    GetOrderAmountException "Failed to retrieve order amount" body.
Proof.
  intros Hnet. eapply answered_one in Hnet;
    [| unfold sent_by; rewrite get_order_amount_run; reflexivity].
  unfold outcome. rewrite get_order_amount_run. cbv zeta. simpl snd.
  now rewrite Hnet.
Qed.

(** *** Failure envelopes *)

Section Envelopes.

Variables amount currency_code description external_id timeout_seconds
  customer_telegram_user_id return_url fail_return_url custom_data : pyval.
Variable order_id : string.
Variables offset count : Z.

Local Abbreviation create_order' :=
  (create_order OrderPreview self amount currency_code description external_id
     timeout_seconds customer_telegram_user_id return_url fail_return_url custom_data).
Local Abbreviation get_order_preview' := (get_order_preview OrderPreview self order_id).
Local Abbreviation get_order_list' :=
  (get_order_list OrderReconciliationItem dict_order self offset count).
Local Abbreviation get_order_amount' := (get_order_amount self).

(** C1: when the HTTP call of an operation is answered with status 200 and
    an envelope whose "status" is not the string "SUCCESS", the operation
    raises its own failure type ([CreateOrderException],
    [GetOrderPreviewException], [GetOrderListException],
    [GetOrderAmountException]), and the payload of the failure is the whole
    envelope as it was received. *)
Theorem failure_envelope_raises_operation_failure (env : gmap string pyval) :
  env !! "status" ≠ Some (PStr "SUCCESS") ->
  (answered create_order' net (HttpResponse 200 (PDict env)) ->
   outcome create_order' net =
     Raise (CreateOrderException (PDict env) "Failed to create order"))
  /\ (answered get_order_preview' net (HttpResponse 200 (PDict env)) ->
      outcome get_order_preview' net =
        Raise (GetOrderPreviewException (PDict env) "Failed to retrieve order preview"))
  /\ (answered get_order_list' net (HttpResponse 200 (PDict env)) ->
      outcome get_order_list' net =
        Raise (GetOrderListException (PDict env) "Failed to retrieve order list"))
  /\ (answered get_order_amount' net (HttpResponse 200 (PDict env)) ->
      outcome get_order_amount' net =
        Raise (GetOrderAmountException (PDict env) "Failed to retrieve order amount")).
Proof.
  intros Hstatus. repeat split; intros Hnet.
  - rewrite (create_order_200 _ _ _ _ _ _ _ _ _ _ Hnet).
    now apply read_envelope_failure.
  - rewrite (get_order_preview_200 _ _ Hnet). now apply read_envelope_failure.
  - rewrite (get_order_list_200 _ _ _ Hnet). now apply read_envelope_failure.
  - rewrite (get_order_amount_200 _ Hnet). now apply read_envelope_failure.
Qed.

(** C10: the success test is equality with the string "SUCCESS", character
    for character: it holds of no other value, so not of "success" and not
    of a value that is not a string.  An envelope without a "status" field,
    or with any other value there, makes each of the four operations raise
    its own failure type; none of them returns and none raises another
    error. *)
Theorem success_check_is_exact (env : gmap string pyval) :
  (forall v : pyval, py_eq_str v "SUCCESS" = true <-> v = PStr "SUCCESS")
  /\ py_eq_str (PStr "success") "SUCCESS" = false
  /\ (env !! "status" = None
      \/ (exists v, env !! "status" = Some v /\ v <> PStr "SUCCESS") ->
      (answered create_order' net (HttpResponse 200 (PDict env)) ->
       exists message,
         outcome create_order' net = Raise (CreateOrderException (PDict env) message))
      /\ (answered get_order_preview' net (HttpResponse 200 (PDict env)) ->
          exists message,
            outcome get_order_preview' net =
              Raise (GetOrderPreviewException (PDict env) message))
      /\ (answered get_order_list' net (HttpResponse 200 (PDict env)) ->
          exists message,
            outcome get_order_list' net =
              Raise (GetOrderListException (PDict env) message))
      /\ (answered get_order_amount' net (HttpResponse 200 (PDict env)) ->
          exists message,
            outcome get_order_amount' net =
              Raise (GetOrderAmountException (PDict env) message))).
Proof.
  split; [intros v; apply py_eq_str_true |].
  split; [reflexivity |].
  intros Hcases.
  assert (Hstatus : env !! "status" ≠ Some (PStr "SUCCESS")).
  { destruct Hcases as [-> | (v & -> & Hv)]; [discriminate | congruence]. }
  repeat split; intros Hnet; eexists.
  - rewrite (create_order_200 _ _ _ _ _ _ _ _ _ _ Hnet).
    now apply read_envelope_failure.
  - rewrite (get_order_preview_200 _ _ Hnet). now apply read_envelope_failure.
  - rewrite (get_order_list_200 _ _ _ Hnet). now apply read_envelope_failure.
  - rewrite (get_order_amount_200 _ Hnet). now apply read_envelope_failure.
Qed.

(** *** Successful envelopes *)


(** C9: on a SUCCESS envelope without "data", or whose "data" object has no
    "totalAmount", [get_order_amount] applies [int] to [None]: it raises
    [TypeError], which is not [GetOrderAmountException] and not a
    [WalletPayException] at all, and so carries no payload. *)
Theorem get_order_amount_missing_total (env : gmap string pyval) :
  answered get_order_amount' net (HttpResponse 200 (PDict env)) ->
  env !! "status" = Some (PStr "SUCCESS") ->
  env !! "data" = None
  \/ (exists d : gmap string pyval,
        env !! "data" = Some (PDict d) /\ d !! "totalAmount" = None) ->
  exists e : py_exn,
    outcome get_order_amount' net = Raise e
    /\ e = TypeError
    /\ is_WalletPayException e = false
    /\ (forall response_data message,
          e <> GetOrderAmountException response_data message).
Proof.
  intros Hnet Hstatus Hmissing. exists TypeError.
  split; [| split; [reflexivity | split; [reflexivity | discriminate]]].
  rewrite (get_order_amount_200 _ Hnet), read_envelope_success by assumption.
  simpl. destruct Hmissing as [-> | (d & -> & Hd)]; simpl.
  - reflexivity.
  - now rewrite Hd.
Qed.


(** The success branches of [get_order_list] and [get_order_amount] call
    [get] on the value of "data": when that value is there and is not a JSON
    object, for instance [null], they run into [AttributeError]. *)

Lemma data_without_object (env : gmap string pyval) (v : pyval) :
  env !! "status" = Some (PStr "SUCCESS") ->
  env !! "data" = Some v ->
  (forall d : gmap string pyval, v <> PDict d) ->
  (answered get_order_list' net (HttpResponse 200 (PDict env)) ->
   outcome get_order_list' net = Raise AttributeError)
  /\ (answered get_order_amount' net (HttpResponse 200 (PDict env)) ->
      outcome get_order_amount' net = Raise AttributeError).
Proof.
  intros Hstatus Hdata Hv. split; intros Hnet.
  - rewrite (get_order_list_200 _ _ _ Hnet), read_envelope_success by assumption.
    simpl. rewrite Hdata. destruct v; try reflexivity. now destruct (Hv d).
  - rewrite (get_order_amount_200 _ Hnet), read_envelope_success by assumption.
    simpl. rewrite Hdata. destruct v; try reflexivity. now destruct (Hv d).
Qed.

(** *** The body of [create_order] *)

(** C4: the body that [create_order] posts has the key "returnUrl" exactly
    when [return_url] is truthy, and then with [return_url] itself as its
    value; the same holds of "failReturnUrl" with [fail_return_url] and of
    "customData" with [custom_data].  A key that is left out is absent from
    the dictionary: no value, not even [None], is stored under it. *)
Theorem create_order_optional_fields :
  exists (req : http_request) (body : gmap string pyval),
    sent_by create_order' net = [req]
    /\ req_json req = Some (PDict body)
    /\ body !! "returnUrl" = (if truthy return_url then Some return_url else None)
    /\ body !! "failReturnUrl" =
         (if truthy fail_return_url then Some fail_return_url else None)
    /\ body !! "customData" = (if truthy custom_data then Some custom_data else None)
    /\ (return_url = PNone -> body !! "returnUrl" = None)
    /\ (fail_return_url = PNone -> body !! "failReturnUrl" = None)
    /\ (custom_data = PNone -> body !! "customData" = None).
Proof.
  eexists; eexists.
  split; [unfold sent_by; rewrite create_order_run; reflexivity |].
  split; [reflexivity |].
  assert (Hbody :
    order_data amount currency_code description external_id timeout_seconds
      customer_telegram_user_id return_url fail_return_url custom_data !! "returnUrl" =
      (if truthy return_url then Some return_url else None)
    /\ order_data amount currency_code description external_id timeout_seconds
         customer_telegram_user_id return_url fail_return_url custom_data
       !! "failReturnUrl" =
       (if truthy fail_return_url then Some fail_return_url else None)
    /\ order_data amount currency_code description external_id timeout_seconds
         customer_telegram_user_id return_url fail_return_url custom_data
       !! "customData" =
       (if truthy custom_data then Some custom_data else None)).
  { unfold order_data.
    destruct (truthy return_url), (truthy fail_return_url), (truthy custom_data);
      repeat split; reflexivity. }
  destruct Hbody as (Hreturn & Hfail & Hcustom).
  simpl wire_request. cbn [req_json].
  repeat split; try assumption.
  - intros Hnone. rewrite Hreturn, Hnone. reflexivity.
  - intros Hnone. rewrite Hfail, Hnone. reflexivity.
  - intros Hnone. rewrite Hcustom, Hnone. reflexivity.
Qed.

(** C6: the body that [create_order] posts to the endpoint "order" has the
    object [{"currencyCode": currency_code, "amount": amount}] under
    "amount", and the arguments [description], [external_id],
    [timeout_seconds] and [customer_telegram_user_id] under "description",
    "externalId", "timeoutSeconds" and "customerTelegramUserId".  Without
    optional arguments there is nothing else in it, and
    [create_order(10.0, "USD", "desc", "ext-1", 600, "12345")] posts
    [{"amount": {"currencyCode": "USD", "amount": 10.0}, "description":
    "desc", "externalId": "ext-1", "timeoutSeconds": 600,
    "customerTelegramUserId": "12345"}]. *)
Theorem create_order_body :
  (exists (req : http_request) (body amount_object : gmap string pyval),
     sent_by create_order' net = [req]
     /\ req_method req = "POST"
     /\ req_url req = "https://pay.wallet.tg/wpay/store-api/v1/order"
     /\ req_json req = Some (PDict body)
     /\ body !! "amount" = Some (PDict amount_object)
     /\ amount_object !! "currencyCode" = Some currency_code
     /\ amount_object !! "amount" = Some amount
     /\ size amount_object = 2%nat
     /\ body !! "description" = Some description
     /\ body !! "externalId" = Some external_id
     /\ body !! "timeoutSeconds" = Some timeout_seconds
     /\ body !! "customerTelegramUserId" = Some customer_telegram_user_id
     /\ (truthy return_url = false -> truthy fail_return_url = false ->
         truthy custom_data = false -> size body = 5%nat))
  /\ map req_json
       (sent_by (create_order OrderPreview self (PFloat 10.0) (PStr "USD") (PStr "desc")
                   (PStr "ext-1") (PInt 600) (PStr "12345") PNone PNone PNone) net) =
     [Some (PDict {[ "amount" := PDict {[ "currencyCode" := PStr "USD";
                                           "amount" := PFloat 10.0 ]};
                     "description" := PStr "desc";
                     "externalId" := PStr "ext-1";
                     "timeoutSeconds" := PInt 600;
                     "customerTelegramUserId" := PStr "12345" ]})].
Proof.
  split.
  - eexists; eexists; eexists.
    split; [unfold sent_by; rewrite create_order_run; reflexivity |].
    do 3 (split; [reflexivity |]).
    unfold order_data.
    destruct (truthy return_url), (truthy fail_return_url), (truthy custom_data);
      repeat split; try reflexivity; discriminate.
  - unfold sent_by. rewrite create_order_run. reflexivity.
Qed.

End Envelopes.


End PublicOperations.

(** ** Worked examples *)

Lemma sample_network_answered {A : Type} (m : io A) (status : Z) (body : pyval) :
  answered m (sample_network status body) (HttpResponse status body).
Proof.
  apply Forall_forall. intros req _. reflexivity.
Qed.

Lemma invalid_method_witness :
  "PUT" <> "POST" /\ "PUT" <> "GET"
  /\ _make_request sample_client "PUT" "order" PNone
       (sample_network 200 (PDict amount_envelope)) [] =
     ([], Raise (WalletPayException (PStr "Invalid HTTP method")))
  /\ sent_by (_make_request sample_client "PUT" "order" PNone)
       (sample_network 200 (PDict amount_envelope)) = [].
Proof.
  assert (HP : "PUT" <> "POST") by discriminate.
  assert (HG : "PUT" <> "GET") by discriminate.
  split; [exact HP |]. split; [exact HG |].
  apply invalid_method_raises_before_any_call; assumption.
Defined.


Lemma request_url_and_headers_witness :
  In (wire_request sample_client "GET" "reconciliation/order-amount" PNone)
     (sent_by (_make_request sample_client "GET" "reconciliation/order-amount" PNone)
        (sample_network 200 (PDict amount_envelope)))
  /\ req_url (wire_request sample_client "GET" "reconciliation/order-amount" PNone) =
     "https://pay.wallet.tg/wpay/store-api/v1/reconciliation/order-amount"
  /\ req_headers (wire_request sample_client "GET" "reconciliation/order-amount" PNone)
     !! "Wpay-Store-Api-Key" = Some "secret"
  /\ size (req_headers
             (wire_request sample_client "GET" "reconciliation/order-amount" PNone)) = 3%nat.
Proof.
  assert (Hin : In (wire_request sample_client "GET" "reconciliation/order-amount" PNone)
                  (sent_by (_make_request sample_client "GET"
                              "reconciliation/order-amount" PNone)
                     (sample_network 200 (PDict amount_envelope))))
    by (left; reflexivity).
  split; [exact Hin |].
  destruct (proj1 (request_url_and_headers sample_client "GET"
                     "reconciliation/order-amount" PNone
                     (sample_network 200 (PDict amount_envelope))) _ Hin)
    as (Hurl & Hsize & Hkey & _ & _).
  split; [exact Hurl |]. split; [exact Hkey | exact Hsize].
Defined.

Lemma failure_envelope_witness :
  failed_envelope !! "status" ≠ Some (PStr "SUCCESS")
  /\ outcome (create_order keep_json sample_client (PFloat 10.0) (PStr "USD") (PStr "desc")
                (PStr "ext-1") (PInt 600) (PStr "12345") PNone PNone PNone)
       (sample_network 200 (PDict failed_envelope)) =
     Raise (CreateOrderException (PDict failed_envelope) "Failed to create order")
  /\ outcome (get_order_preview keep_json sample_client "o1")
       (sample_network 200 (PDict failed_envelope)) =
     Raise (GetOrderPreviewException (PDict failed_envelope)
              "Failed to retrieve order preview")
  /\ outcome (get_order_list keep_json enumerated_keys sample_client 0 10)
       (sample_network 200 (PDict failed_envelope)) =
     Raise (GetOrderListException (PDict failed_envelope) "Failed to retrieve order list")
  /\ outcome (get_order_amount sample_client)
       (sample_network 200 (PDict failed_envelope)) =
     Raise (GetOrderAmountException (PDict failed_envelope)
              "Failed to retrieve order amount").
Proof.
  assert (Hstatus : failed_envelope !! "status" ≠ Some (PStr "SUCCESS"))
    by (vm_compute; discriminate).
  split; [exact Hstatus |].
  destruct (failure_envelope_raises_operation_failure keep_json keep_json
              enumerated_keys sample_client (sample_network 200 (PDict failed_envelope))
              (PFloat 10.0) (PStr "USD") (PStr "desc") (PStr "ext-1") (PInt 600)
              (PStr "12345") PNone PNone PNone "o1" 0 10 failed_envelope Hstatus)
    as (Hcreate & Hpreview & Hlist & Hamount).
  split; [apply Hcreate | split; [apply Hpreview | split; [apply Hlist | apply Hamount]]];
    apply sample_network_answered.
Defined.

Lemma success_check_witness :
  (exists v, lowercase_envelope !! "status" = Some v /\ v <> PStr "SUCCESS")
  /\ (exists message,
        outcome (get_order_amount sample_client)
          (sample_network 200 (PDict lowercase_envelope)) =
        Raise (GetOrderAmountException (PDict lowercase_envelope) message))
  /\ (∅ : gmap string pyval) !! "status" = None
  /\ (exists message,
        outcome (get_order_preview keep_json sample_client "o1")
          (sample_network 200 (PDict ∅)) =
        Raise (GetOrderPreviewException (PDict ∅) message)).
Proof.
  assert (Hlower : exists v, lowercase_envelope !! "status" = Some v /\ v <> PStr "SUCCESS")
    by (exists (PStr "success"); split; [reflexivity | discriminate]).
  split; [exact Hlower |]. split; [| split; [reflexivity |]].
  - apply (success_check_is_exact keep_json keep_json enumerated_keys sample_client
             (sample_network 200 (PDict lowercase_envelope))
             PNone PNone PNone PNone PNone PNone PNone PNone PNone "o1" 0 10
             lowercase_envelope);
      [right; exact Hlower | apply sample_network_answered].
  - apply (success_check_is_exact keep_json keep_json enumerated_keys sample_client
             (sample_network 200 (PDict ∅))
             PNone PNone PNone PNone PNone PNone PNone PNone PNone "o1" 0 10 ∅);
      [left; reflexivity | apply sample_network_answered].
Defined.


Lemma missing_total_witness :
  no_total_envelope !! "status" = Some (PStr "SUCCESS")
  /\ (exists d : gmap string pyval,
        no_total_envelope !! "data" = Some (PDict d) /\ d !! "totalAmount" = None)
  /\ exists e : py_exn,
       outcome (get_order_amount sample_client)
         (sample_network 200 (PDict no_total_envelope)) = Raise e
       /\ e = TypeError
       /\ is_WalletPayException e = false
       /\ (forall response_data message,
             e <> GetOrderAmountException response_data message).
Proof.
  assert (Hdata : exists d : gmap string pyval,
             no_total_envelope !! "data" = Some (PDict d) /\ d !! "totalAmount" = None)
    by (exists {[ "currency" := PStr "USD" ]}; split; reflexivity).
  split; [reflexivity |]. split; [exact Hdata |].
  apply (get_order_amount_missing_total sample_client
           (sample_network 200 (PDict no_total_envelope)) no_total_envelope);
    [apply sample_network_answered | reflexivity | right; exact Hdata].
Defined.


Lemma create_order_body_witness :
  truthy PNone = false
  /\ truthy (PStr "") = false
  /\ truthy (PDict ∅) = false
  /\ exists (req : http_request) (body : gmap string pyval),
       sent_by (create_order keep_json sample_client (PFloat 10.0) (PStr "USD")
                  (PStr "desc") (PStr "ext-1") (PInt 600) (PStr "12345")
                  PNone (PStr "") (PDict ∅))
         (sample_network 200 (PDict amount_envelope)) = [req]
       /\ req_json req = Some (PDict body)
       /\ size body = 5%nat.
Proof.
  split; [reflexivity |]. split; [reflexivity |]. split; [reflexivity |].
  destruct (proj1 (create_order_body keep_json sample_client
                     (sample_network 200 (PDict amount_envelope))
                     (PFloat 10.0) (PStr "USD") (PStr "desc") (PStr "ext-1") (PInt 600)
                     (PStr "12345") PNone (PStr "") (PDict ∅)))
    as (req & body & amount_object & Hsent & _ & _ & Hjson & H).
  exists req, body. split; [exact Hsent |]. split; [exact Hjson |].
  apply H; reflexivity.
Defined.

Lemma create_order_optional_witness :
  exists (req : http_request) (body : gmap string pyval),
    sent_by (create_order keep_json sample_client (PFloat 10.0) (PStr "USD")
               (PStr "desc") (PStr "ext-1") (PInt 600) (PStr "12345")
               (PStr "https://shop.example/ok") PNone (PDict {[ "cart" := PInt 3 ]}))
      (sample_network 200 (PDict amount_envelope)) = [req]
    /\ req_json req = Some (PDict body)
    /\ body !! "returnUrl" = Some (PStr "https://shop.example/ok")
    /\ body !! "failReturnUrl" = None
    /\ body !! "customData" = Some (PDict {[ "cart" := PInt 3 ]}).
Proof.
  destruct (create_order_optional_fields keep_json sample_client
              (sample_network 200 (PDict amount_envelope))
              (PFloat 10.0) (PStr "USD") (PStr "desc") (PStr "ext-1") (PInt 600)
              (PStr "12345") (PStr "https://shop.example/ok") PNone
              (PDict {[ "cart" := PInt 3 ]}))
    as (req & body & Hsent & Hjson & Hreturn & _ & Hcustom & _ & Hfail & _).
  exists req, body.
  split; [exact Hsent |]. split; [exact Hjson |].
  split; [exact Hreturn |]. split; [apply Hfail; reflexivity | exact Hcustom].
Defined.

(** * Further properties *)

(** ** The executor: what it returns, what it lets through *)

Section ExecutorOutcomes.

Variable self : AsyncWalletPayAPI.
Variables method endpoint : string.
Variable data : pyval.
Variable net : network.

Lemma read_outcome_Ok (o : http_outcome) (v : pyval) :
  read_outcome o = Ok v <-> o = HttpResponse 200 v.
Proof.
  split.
  - destruct o as [e | status body]; simpl.
    + destruct e; discriminate.
    + destruct (Z.eqb_spec status 200) as [-> | _].
      * now intros [= ->].
      * destruct (py_get body "message" (PStr "Unknown error")); discriminate.
  - intros ->. reflexivity.
Qed.

(** X1: the executor returns a value only after an exchange that was
    answered with status 200, and the value is then the parsed body of that
    response, as it is: with any other status, with an error of the HTTP
    library or with an unsupported method it raises. *)
Theorem executor_returns_exactly_the_200_body (v : pyval) :
  outcome (_make_request self method endpoint data) net = Ok v
  <-> exists req : http_request,
        sent_by (_make_request self method endpoint data) net = [req]
        /\ net req = HttpResponse 200 v.
Proof.
  split.
  - intros Hout.
    destruct (String.eqb_spec method "POST") as [HP | HP];
      [| destruct (String.eqb_spec method "GET") as [HG | HG]].
    3: { unfold outcome in Hout.
         rewrite _make_request_unsupported in Hout by assumption. discriminate. }
    all: exists (wire_request self method endpoint data);
      unfold outcome, sent_by in *;
      rewrite _make_request_supported in * by auto;
      split; [reflexivity | now apply read_outcome_Ok].
  - intros (req & Hsent & Hnet).
    apply (status_200_returns_body self method endpoint data net req); [| assumption].
    rewrite Hsent. now left.
Qed.

(** X2: an exception of the HTTP library that is an [aiohttp.ClientError]
    comes out as [WalletPayException("API request failed: ...")] with the
    description of the error; any other exception of the library passes
    through the executor unchanged. *)
Theorem library_errors_are_wrapped_or_passed_on (req : http_request) (e : py_exn) :
  In req (sent_by (_make_request self method endpoint data) net) ->
  net req = HttpRaises e ->
  (forall description, e = ClientError description ->
     outcome (_make_request self method endpoint data) net =
       Raise (WalletPayException (PStr ("API request failed: " +:+ description))))
  /\ ((forall description, e <> ClientError description) ->
      outcome (_make_request self method endpoint data) net = Raise e).
Proof.
  intros Hin Hnet. destruct (_make_request_sent _ _ _ _ _ _ Hin) as [Hm ->].
  unfold outcome. rewrite _make_request_supported by assumption.
  rewrite Hnet. split.
  - intros description ->. reflexivity.
  - intros Hother. destruct e; try reflexivity. now destruct (Hother description).
Qed.


End ExecutorOutcomes.

(** ** What [int] accepts and what it raises *)





Lemma int_of_str_raises (s : string) (e : py_exn) :
  int_of_str s = Raise e -> e = ValueError.
Proof.
  unfold int_of_str.
  repeat match goal with
         | |- context [match ?x with _ => _ end] => destruct x
         | |- context [if ?x then _ else _] => destruct x
         end;
    congruence.
Qed.



Lemma int_of_float_raises (f : float) (e : py_exn) :
  int_of_float f = Raise e -> e = ValueError \/ e = OverflowError.
Proof.
  unfold int_of_float. destruct (Prim2SF f); intros [=]; auto.
Qed.

Lemma py_int_raises (v : pyval) (e : py_exn) :
  py_int v = Raise e -> e = TypeError \/ e = ValueError \/ e = OverflowError.
Proof.
  destruct v; simpl; try (intros [= <-]; auto); try discriminate.
  - intros H. apply int_of_float_raises in H. tauto.
  - intros H. apply int_of_str_raises in H. tauto.
Qed.

(** [int] of a finite float drops the fraction: the result has the sign of
    the float, and its magnitude is the integer part of [m * 2 ^ e]. *)
Lemma int_of_float_finite (f : float) (negative : bool) (m : positive) (e : Z) :
  Prim2SF f = S754_finite negative m e ->
  exists r : Z,
    int_of_float f = Ok r
    /\ (if negative then r <= 0 else 0 <= r)
    /\ (0 <= e -> Z.abs r = Z.pos m * 2 ^ e)
    /\ (e < 0 -> Z.abs r * 2 ^ (- e) <= Z.pos m < (Z.abs r + 1) * 2 ^ (- e)).
Proof.
  intros Hf. unfold int_of_float. rewrite Hf.
  set (magnitude := Z.shiftl (Z.pos m) e).
  assert (Hpos : 0 <= magnitude) by (apply Z.shiftl_nonneg; lia).
  exists (if negative then - magnitude else magnitude).
  split; [reflexivity |].
  assert (Habs : Z.abs (if negative then - magnitude else magnitude) = magnitude)
    by (destruct negative; lia).
  rewrite Habs. split; [destruct negative; lia |]. split.
  - intros He. subst magnitude. now rewrite Z.shiftl_mul_pow2.
  - intros He. subst magnitude.
    rewrite Z.shiftl_div_pow2 by lia.
    assert (Hpow : 0 < 2 ^ (- e)) by (apply Z.pow_pos_nonneg; lia).
    pose proof (Z.mul_div_le (Z.pos m) (2 ^ (- e)) Hpow).
    pose proof (Z.mul_succ_div_gt (Z.pos m) (2 ^ (- e)) Hpow).
    lia.
Qed.

(** ** Decimal notation in a query string *)

Lemma string_of_uint_chars (d : Decimal.uint) (c : ascii) :
  In c (list_ascii_of_string (NilEmpty.string_of_uint d)) ->
  exists n : Z, digit_value c = Some n.
Proof.
  induction d; simpl; try tauto;
    (intros [<- | Hin]; [eexists; reflexivity | now apply IHd]).
Qed.

Lemma str_of_int_chars (z : Z) (c : ascii) :
  In c (list_ascii_of_string (str_of_int z)) ->
  c = "-"%char \/ exists n : Z, digit_value c = Some n.
Proof.
  unfold str_of_int.
  destruct z as [| p | p]; cbn [Z.to_int NilZero.string_of_int].
  - intros [<- | []]. right. eexists; reflexivity.
  - rewrite string_of_uint_nonnil by apply DecimalPos.Unsigned.to_uint_nonnil.
    intros Hin. right. eapply string_of_uint_chars, Hin.
  - rewrite string_of_uint_nonnil by apply DecimalPos.Unsigned.to_uint_nonnil.
    intros [<- | Hin]; [now left | right; eapply string_of_uint_chars, Hin].
Qed.

Lemma str_of_int_inj (z z' : Z) : str_of_int z = str_of_int z' -> z = z'.
Proof.
  assert (Hnil : forall n, Z.to_int n <> Decimal.Pos Decimal.Nil
                           /\ Z.to_int n <> Decimal.Neg Decimal.Nil).
  { intros [| p | p]; split; try discriminate; intros [= H];
      now apply DecimalPos.Unsigned.to_uint_nonnil in H. }
  unfold str_of_int. intros Heq.
  apply (f_equal NilZero.int_of_string) in Heq.
  rewrite !NilZero.isi in Heq by apply Hnil.
  injection Heq as Heq. now apply DecimalZ.to_int_inj.
Qed.

Lemma append_separator_inj (sep : ascii) (a a' r r' : string) :
  ~ In sep (list_ascii_of_string a) ->
  ~ In sep (list_ascii_of_string a') ->
  a +:+ String sep r = a' +:+ String sep r' ->
  a = a' /\ r = r'.
Proof.
  revert a'. induction a as [| c a IH]; intros [| c' a']; simpl; intros Ha Ha' Heq.
  - now injection Heq as ->.
  - injection Heq as -> _. tauto.
  - injection Heq as <- _. tauto.
  - injection Heq as -> Heq. destruct (IH a') as [-> ->]; tauto.
Qed.

(** ** The operations: one exchange each, and what they make of it *)

Section OperationOutcomes.

Context {OrderPreviewT OrderReconciliationItemT : Type}.
Variable OrderPreview : pyval -> result OrderPreviewT.
Variable OrderReconciliationItem : pyval -> result OrderReconciliationItemT.
Variable dict_order : gmap string pyval -> list string.

Variable self : AsyncWalletPayAPI.
Variable net : network.

Variables amount currency_code description external_id timeout_seconds
  customer_telegram_user_id return_url fail_return_url custom_data : pyval.
Variable order_id : string.
Variables offset count : Z.

Local Abbreviation create_order' :=
  (create_order OrderPreview self amount currency_code description external_id
     timeout_seconds customer_telegram_user_id return_url fail_return_url custom_data).
Local Abbreviation get_order_preview' := (get_order_preview OrderPreview self order_id).
Local Abbreviation get_order_list' :=
  (get_order_list OrderReconciliationItem dict_order self offset count).
Local Abbreviation get_order_amount' := (get_order_amount self).

Local Abbreviation preview_of :=
  (fun response_data : pyval =>
     result_bind (py_get response_data "data" PNone) OrderPreview).
Local Abbreviation list_of :=
  (fun response_data : pyval =>
     result_bind (py_get response_data "data" (PDict ∅)) (fun data =>
     result_bind (py_get data "items" (PList [])) (fun orders_data =>
     result_bind (py_iter dict_order orders_data) (mapM OrderReconciliationItem)))).
Local Abbreviation amount_of :=
  (fun response_data : pyval =>
     result_bind (py_get response_data "data" (PDict ∅)) (fun data =>
     result_bind (py_get data "totalAmount" PNone) py_int)).

(** Whatever the answer [o] is, the outcome of an operation is a function
    of [o] alone. *)

Lemma create_order_answered (o : http_outcome) :
  answered create_order' net o ->
  outcome create_order' net =
  result_bind (read_outcome o)
    (read_envelope preview_of CreateOrderException "Failed to create order").
Proof.
  intros Hnet. eapply answered_one in Hnet;
    [| unfold sent_by; rewrite create_order_run; reflexivity].
  unfold outcome. rewrite create_order_run. cbv zeta. simpl snd.
  now rewrite Hnet.
Qed.

Lemma get_order_preview_answered (o : http_outcome) :
  answered get_order_preview' net o ->
  outcome get_order_preview' net =
  result_bind (read_outcome o)
    (read_envelope preview_of GetOrderPreviewException
       "Failed to retrieve order preview").
Proof.
  intros Hnet. eapply answered_one in Hnet;
    [| unfold sent_by; rewrite get_order_preview_run; reflexivity].
  unfold outcome. rewrite get_order_preview_run. cbv zeta. simpl snd.
  now rewrite Hnet.
Qed.

Lemma get_order_list_answered (o : http_outcome) :
  answered get_order_list' net o ->
  outcome get_order_list' net =
  result_bind (read_outcome o)
    (read_envelope list_of GetOrderListException "Failed to retrieve order list").
Proof.
  intros Hnet. eapply answered_one in Hnet;
    [| unfold sent_by; rewrite get_order_list_run; reflexivity].
  unfold outcome. rewrite get_order_list_run. cbv zeta. simpl snd.
  now rewrite Hnet.
Qed.

Lemma get_order_amount_answered (o : http_outcome) :
  answered get_order_amount' net o ->
  outcome get_order_amount' net =
  result_bind (read_outcome o)
    (read_envelope amount_of GetOrderAmountException
       "Failed to retrieve order amount").
Proof.
  intros Hnet. eapply answered_one in Hnet;
    [| unfold sent_by; rewrite get_order_amount_run; reflexivity].
  unfold outcome. rewrite get_order_amount_run. cbv zeta. simpl snd.
  now rewrite Hnet.
Qed.


(** X5: the endpoint of [get_order_list] determines the page that was
    asked for: two calls that send the same URL have the same [offset] and
    the same [count], negative numbers included. *)
Theorem order_list_url_determines_page (offset' count' : Z) :
  map req_url (sent_by get_order_list' net) =
  map req_url (sent_by (get_order_list OrderReconciliationItem dict_order self
                          offset' count') net) ->
  offset = offset' /\ count = count'.
Proof.
  unfold sent_by. rewrite !get_order_list_run. cbv zeta.
  simpl. intros [= Heq].
  assert (Hamp : forall z, ~ In "&"%char (list_ascii_of_string (str_of_int z))).
  { intros z Hin. apply str_of_int_chars in Hin as [[=] | [n [=]]]. }
  apply append_separator_inj in Heq as [Hoffset Hcount]; try apply Hamp.
  simpl in Hcount. injection Hcount as Hcount.
  split; now apply str_of_int_inj.
Qed.

(** *** Failures of the transport reach the caller unchanged *)

(** X6: when the response has a status other than 200 and a JSON object as
    its body, every operation raises the generic [WalletPayException] of the
    executor, with the "message" of the body or "Unknown error", and not its
    own failure type; the "status" field of the body plays no part, even
    when it is "SUCCESS". *)
Theorem operations_pass_on_non_200 (status : Z) (env : gmap string pyval) :
  status <> 200 ->
  (answered create_order' net (HttpResponse status (PDict env)) ->
   outcome create_order' net =
     Raise (WalletPayException
              (match env !! "message" with Some m => m | None => PStr "Unknown error" end)))
  /\ (answered get_order_preview' net (HttpResponse status (PDict env)) ->
      outcome get_order_preview' net =
        Raise (WalletPayException
                 (match env !! "message" with Some m => m | None => PStr "Unknown error" end)))
  /\ (answered get_order_list' net (HttpResponse status (PDict env)) ->
      outcome get_order_list' net =
        Raise (WalletPayException
                 (match env !! "message" with Some m => m | None => PStr "Unknown error" end)))
  /\ (answered get_order_amount' net (HttpResponse status (PDict env)) ->
      outcome get_order_amount' net =
        Raise (WalletPayException
                 (match env !! "message" with Some m => m | None => PStr "Unknown error" end))).
Proof.
  intros Hstatus. apply Z.eqb_neq in Hstatus.
  split; [| split; [| split]]; intros Hnet.
  - rewrite (create_order_answered _ Hnet). simpl. now rewrite Hstatus.
  - rewrite (get_order_preview_answered _ Hnet). simpl. now rewrite Hstatus.
  - rewrite (get_order_list_answered _ Hnet). simpl. now rewrite Hstatus.
  - rewrite (get_order_amount_answered _ Hnet). simpl. now rewrite Hstatus.
Qed.

(** X7: when the HTTP library raises, every operation raises what the
    executor makes of it: [WalletPayException("API request failed: ...")]
    for an [aiohttp.ClientError], the exception itself for any other. *)
Theorem operations_pass_on_library_errors (e : py_exn) :
  let raised :=
    match e with
    | ClientError description =>
        WalletPayException (PStr ("API request failed: " +:+ description))
    | _ => e
    end in
  (answered create_order' net (HttpRaises e) -> outcome create_order' net = Raise raised)
  /\ (answered get_order_preview' net (HttpRaises e) ->
      outcome get_order_preview' net = Raise raised)
  /\ (answered get_order_list' net (HttpRaises e) ->
      outcome get_order_list' net = Raise raised)
  /\ (answered get_order_amount' net (HttpRaises e) ->
      outcome get_order_amount' net = Raise raised).
Proof.
  intros raised. subst raised.
  split; [| split; [| split]]; intros Hnet.
  - rewrite (create_order_answered _ Hnet). now destruct e.
  - rewrite (get_order_preview_answered _ Hnet). now destruct e.
  - rewrite (get_order_list_answered _ Hnet). now destruct e.
  - rewrite (get_order_amount_answered _ Hnet). now destruct e.
Qed.

(** X8: a response whose parsed body is not a JSON object (a list, a
    string, a number, [null]) makes every operation raise [AttributeError],
    whatever the status is: with status 200 the operation asks the body for
    its "status", with any other status the executor asks it for its
    "message". *)
Theorem operations_need_an_object (status : Z) (body : pyval) :
  (forall env : gmap string pyval, body <> PDict env) ->
  (answered create_order' net (HttpResponse status body) ->
   outcome create_order' net = Raise AttributeError)
  /\ (answered get_order_preview' net (HttpResponse status body) ->
      outcome get_order_preview' net = Raise AttributeError)
  /\ (answered get_order_list' net (HttpResponse status body) ->
      outcome get_order_list' net = Raise AttributeError)
  /\ (answered get_order_amount' net (HttpResponse status body) ->
      outcome get_order_amount' net = Raise AttributeError).
Proof.
  intros Hbody.
  assert (Hget : forall key default, py_get body key default = Raise AttributeError).
  { intros key default. destruct body; try reflexivity. now destruct (Hbody d). }
  split; [| split; [| split]]; intros Hnet.
  - rewrite (create_order_answered _ Hnet). simpl.
    destruct (status =? 200); unfold read_envelope; simpl; now rewrite Hget.
  - rewrite (get_order_preview_answered _ Hnet). simpl.
    destruct (status =? 200); unfold read_envelope; simpl; now rewrite Hget.
  - rewrite (get_order_list_answered _ Hnet). simpl.
    destruct (status =? 200); unfold read_envelope; simpl; now rewrite Hget.
  - rewrite (get_order_amount_answered _ Hnet). simpl.
    destruct (status =? 200); unfold read_envelope; simpl; now rewrite Hget.
Qed.

(** *** The success branches *)

(** X9: on a SUCCESS envelope [create_order] and [get_order_preview] hand
    the value of "data" to the constructor of [OrderPreview] and return or
    raise what it returns or raises; without a "data" field the constructor
    is called with [None], not with an empty object. *)
Theorem order_preview_is_built_from_data (env : gmap string pyval) :
  env !! "status" = Some (PStr "SUCCESS") ->
  (answered create_order' net (HttpResponse 200 (PDict env)) ->
   outcome create_order' net =
     OrderPreview (match env !! "data" with Some data => data | None => PNone end))
  /\ (answered get_order_preview' net (HttpResponse 200 (PDict env)) ->
      outcome get_order_preview' net =
        OrderPreview (match env !! "data" with Some data => data | None => PNone end)).
Proof.
  intros Hstatus. split; intros Hnet.
  - rewrite (create_order_answered _ Hnet). simpl.
    now rewrite read_envelope_success.
  - rewrite (get_order_preview_answered _ Hnet). simpl.
    now rewrite read_envelope_success.
Qed.

Lemma mapM_Ok {A B : Type} (f : A -> result B) (l : list A) (l' : list B) :
  mapM f l = Ok l' <-> Forall2 (fun x y => f x = Ok y) l l'.
Proof.
  split; [| apply mapM_Forall2].
  revert l'. induction l as [| x l IH]; simpl; intros l'.
  - intros [= <-]. constructor.
  - destruct (f x) as [e | y] eqn:Hx; [discriminate |]. simpl.
    destruct (mapM f l) as [e | ys]; [discriminate |]. simpl.
    intros [= <-]. constructor; [assumption | now apply IH].
Qed.

Lemma mapM_Raise {A B : Type} (f : A -> result B) (l : list A) (e : py_exn) :
  mapM f l = Raise e <->
  exists (done : list A) (x : A) (rest : list A),
    l = done ++ x :: rest
    /\ Forall (fun y => exists o, f y = Ok o) done
    /\ f x = Raise e.
Proof.
  split.
  - induction l as [| x l IH]; simpl; [discriminate |].
    destruct (f x) as [e' | y] eqn:Hx; simpl.
    + intros [= ->]. exists [], x, l. repeat split; [constructor | assumption].
    + destruct (mapM f l) as [e' | ys]; [| discriminate]. simpl.
      intros [= ->]. destruct (IH eq_refl) as (done & x' & rest & -> & Hdone & Hx').
      exists (x :: done), x', rest.
      repeat split; [constructor; eauto | assumption].
  - intros (done & x & rest & -> & Hdone & Hx).
    induction Hdone as [| y done [o Hy] _ IH]; simpl.
    + now rewrite Hx.
    + now rewrite Hy, IH.
Qed.

(** X10: on a SUCCESS envelope with a list under "data.items",
    [get_order_list] returns a list exactly when the constructor accepts
    every element, and the list then has one item per element, each built
    from the element at the same position. *)
Theorem order_list_is_positional
    (env d : gmap string pyval) (items : list pyval) :
  answered get_order_list' net (HttpResponse 200 (PDict env)) ->
  env !! "status" = Some (PStr "SUCCESS") ->
  env !! "data" = Some (PDict d) ->
  d !! "items" = Some (PList items) ->
  forall orders : list OrderReconciliationItemT,
    outcome get_order_list' net = Ok orders <->
    length orders = length items
    /\ (forall (i : nat) (x : pyval) (y : OrderReconciliationItemT),
          items !! i = Some x -> orders !! i = Some y ->
          OrderReconciliationItem x = Ok y).
Proof.
  intros Hnet Hstatus Hdata Hitems orders.
  rewrite (get_order_list_answered _ Hnet). simpl.
  rewrite read_envelope_success by assumption.
  simpl. rewrite Hdata. simpl. rewrite Hitems. simpl.
  rewrite mapM_Ok. split.
  - intros Hall. split.
    + symmetry. eapply Forall2_length, Hall.
    + intros i x y Hx Hy. eapply Forall2_lookup_lr in Hall; eauto.
  - intros [Hlen Hpos]. apply Forall2_same_length_lookup_2.
    + now symmetry.
    + intros i x y Hx Hy. eapply Hpos; eauto.
Qed.

(** X11: the first element that the constructor of
    [OrderReconciliationItem] rejects ends [get_order_list]: the exception
    of the constructor is what the operation raises, and the items built
    from the elements before it are not returned. *)
Theorem order_list_stops_at_first_rejected_item
    (env d : gmap string pyval) (built : list pyval) (x : pyval) (rest : list pyval)
    (e : py_exn) :
  answered get_order_list' net (HttpResponse 200 (PDict env)) ->
  env !! "status" = Some (PStr "SUCCESS") ->
  env !! "data" = Some (PDict d) ->
  d !! "items" = Some (PList (built ++ x :: rest)) ->
  Forall (fun y => exists o, OrderReconciliationItem y = Ok o) built ->
  OrderReconciliationItem x = Raise e ->
  outcome get_order_list' net = Raise e.
Proof.
  intros Hnet Hstatus Hdata Hitems Hbuilt Hx.
  rewrite (get_order_list_answered _ Hnet). simpl.
  rewrite read_envelope_success by assumption.
  simpl. rewrite Hdata. simpl. rewrite Hitems. simpl.
  apply mapM_Raise. eauto 6.
Qed.

(** X12: the default [[]] of "items" applies to a missing key only: when
    "items" is there with a value that cannot be iterated ([null], a
    boolean, a number), [get_order_list] raises [TypeError] and returns no
    empty list. *)
Theorem order_list_items_must_be_iterable (env d : gmap string pyval) (v : pyval) :
  answered get_order_list' net (HttpResponse 200 (PDict env)) ->
  env !! "status" = Some (PStr "SUCCESS") ->
  env !! "data" = Some (PDict d) ->
  d !! "items" = Some v ->
  v = PNone \/ (exists b, v = PBool b) \/ (exists z, v = PInt z) \/ (exists f, v = PFloat f) ->
  outcome get_order_list' net = Raise TypeError.
Proof.
  intros Hnet Hstatus Hdata Hitems Hv.
  rewrite (get_order_list_answered _ Hnet). simpl.
  rewrite read_envelope_success by assumption.
  simpl. rewrite Hdata. simpl. rewrite Hitems. simpl.
  destruct Hv as [-> | [[b ->] | [[z ->] | [f ->]]]]; reflexivity.
Qed.

(** *** [get_order_amount] and the coercion *)

(** X13: on a SUCCESS envelope [get_order_amount] never raises
    [GetOrderAmountException] or any other [WalletPayException]: it returns
    an integer, or it raises one of the built-in errors [AttributeError],
    [TypeError], [ValueError], [OverflowError] that the lookup of
    "totalAmount" and the coercion can run into. *)
Theorem order_amount_success_raises_only_builtin_errors (env : gmap string pyval) :
  answered get_order_amount' net (HttpResponse 200 (PDict env)) ->
  env !! "status" = Some (PStr "SUCCESS") ->
  (exists n : Z, outcome get_order_amount' net = Ok n)
  \/ (exists e : py_exn,
        outcome get_order_amount' net = Raise e
        /\ is_WalletPayException e = false
        /\ (e = AttributeError \/ e = TypeError \/ e = ValueError \/ e = OverflowError)).
Proof.
  intros Hnet Hstatus.
  rewrite (get_order_amount_answered _ Hnet). simpl.
  rewrite read_envelope_success by assumption. simpl.
  destruct (env !! "data") as [data |]; simpl.
  - destruct data; simpl; try (right; exists AttributeError; now auto).
    destruct (py_int _) as [e | n] eqn:Hint; [| left; now exists n].
    right. exists e. split; [reflexivity |].
    apply py_int_raises in Hint as [-> | [-> | ->]]; auto.
  - right. exists TypeError. auto.
Qed.


(** X15: what [get_order_amount] does with a "totalAmount" that is a
    number: an integer comes back unchanged, whatever its size; a NaN raises
    [ValueError] and an infinity [OverflowError]; a finite float, with
    mantissa [m] and exponent [e], comes back without its fraction: the
    result has the sign of the float and the integer part of [m * 2 ^ e] as
    its magnitude, so it is never rounded away from zero. *)
Theorem order_amount_of_a_number
    (env d : gmap string pyval) (total : pyval) :
  answered get_order_amount' net (HttpResponse 200 (PDict env)) ->
  env !! "status" = Some (PStr "SUCCESS") ->
  env !! "data" = Some (PDict d) ->
  d !! "totalAmount" = Some total ->
  (forall z : Z, total = PInt z -> outcome get_order_amount' net = Ok z)
  /\ (forall f : float, total = PFloat f ->
        (Prim2SF f = S754_nan -> outcome get_order_amount' net = Raise ValueError)
        /\ (forall negative, Prim2SF f = S754_infinity negative ->
              outcome get_order_amount' net = Raise OverflowError)
        /\ (forall negative m e, Prim2SF f = S754_finite negative m e ->
              exists r : Z,
                outcome get_order_amount' net = Ok r
                /\ (if negative then r <= 0 else 0 <= r)
                /\ (0 <= e -> Z.abs r = Z.pos m * 2 ^ e)
                /\ (e < 0 ->
                    Z.abs r * 2 ^ (- e) <= Z.pos m < (Z.abs r + 1) * 2 ^ (- e)))).
Proof.
  intros Hnet Hstatus Hdata Htotal.
  rewrite (get_order_amount_answered _ Hnet). simpl.
  rewrite read_envelope_success by assumption.
  simpl. rewrite Hdata. simpl. rewrite Htotal. simpl.
  split; [now intros z -> |].
  intros f ->. simpl. split; [| split].
  - unfold int_of_float. now intros ->.
  - unfold int_of_float. now intros negative ->.
  - intros negative m e. apply int_of_float_finite.
Qed.

(** *** Where an operation-specific failure comes from *)

Lemma failure_type_origin {A : Type}
    (on_success : pyval -> result A) (failure : pyval -> string -> py_exn)
    (message : string) (o : http_outcome) (payload : pyval) (text : string) :
  (forall v e, on_success v = Raise e -> is_WalletPayException e = false) ->
  (forall e, o = HttpRaises e -> is_WalletPayException e = false) ->
  (forall p t, is_WalletPayException (failure p t) = true) ->
  (forall p t x, failure p t <> WalletPayException x) ->
  (forall p t p' t', failure p t = failure p' t' -> p = p' /\ t = t') ->
  result_bind (read_outcome o) (read_envelope on_success failure message) =
    Raise (failure payload text) ->
  exists env : gmap string pyval,
    o = HttpResponse 200 (PDict env)
    /\ payload = PDict env
    /\ env !! "status" ≠ Some (PStr "SUCCESS")
    /\ text = message.
Proof.
  intros Hsuccess Hlibrary Hclass Hbase Hinj.
  assert (Hbuiltin : forall e, is_WalletPayException e = false ->
                               @inl py_exn A e = Raise (failure payload text) -> False).
  { intros e He [= ->]. now rewrite Hclass in He. }
  destruct o as [e | status body]; simpl.
  - specialize (Hlibrary e eq_refl).
    destruct e; simpl in *; intros H;
      first [ discriminate Hlibrary
            | injection H as H; symmetry in H; now apply Hbase in H
            | exfalso; eapply Hbuiltin; [| exact H]; reflexivity ].
  - destruct (Z.eqb_spec status 200) as [-> | _].
    + unfold read_envelope. destruct body; simpl;
        try (intros H; now apply Hbuiltin in H).
      destruct (py_eq_str _ "SUCCESS") eqn:Heq.
      * destruct (on_success (PDict d)) as [e |] eqn:Hs; [| discriminate].
        intros H. apply Hsuccess in Hs. now apply Hbuiltin in H.
      * intros [= H]. apply Hinj in H as [<- <-].
        exists d. repeat split; try reflexivity.
        intros Hd. rewrite Hd in Heq. discriminate.
    + destruct body; simpl; try (intros H; now apply Hbuiltin in H).
      intros [= H]. symmetry in H. now apply Hbase in H.
Qed.

(** X16: provided that neither the HTTP library nor the constructors of the
    result classes raise an exception of the [WalletPayException] family, an
    operation-specific failure has one origin only: the exchange was
    answered with status 200 and a JSON object whose "status" is not
    "SUCCESS"; the payload of the failure is that object and its message is
    the fixed text of the operation. *)
Theorem operation_failures_come_from_200_envelopes
    (payload : pyval) (text : string) :
  (forall req e, net req = HttpRaises e -> is_WalletPayException e = false) ->
  (forall v e, OrderPreview v = Raise e -> is_WalletPayException e = false) ->
  (forall v e, OrderReconciliationItem v = Raise e -> is_WalletPayException e = false) ->
  (outcome create_order' net = Raise (CreateOrderException payload text) ->
   exists env : gmap string pyval,
     answered create_order' net (HttpResponse 200 (PDict env))
     /\ payload = PDict env /\ env !! "status" ≠ Some (PStr "SUCCESS")
     /\ text = "Failed to create order")
  /\ (outcome get_order_preview' net = Raise (GetOrderPreviewException payload text) ->
      exists env : gmap string pyval,
        answered get_order_preview' net (HttpResponse 200 (PDict env))
        /\ payload = PDict env /\ env !! "status" ≠ Some (PStr "SUCCESS")
        /\ text = "Failed to retrieve order preview")
  /\ (outcome get_order_list' net = Raise (GetOrderListException payload text) ->
      exists env : gmap string pyval,
        answered get_order_list' net (HttpResponse 200 (PDict env))
        /\ payload = PDict env /\ env !! "status" ≠ Some (PStr "SUCCESS")
        /\ text = "Failed to retrieve order list")
  /\ (outcome get_order_amount' net = Raise (GetOrderAmountException payload text) ->
      exists env : gmap string pyval,
        answered get_order_amount' net (HttpResponse 200 (PDict env))
        /\ payload = PDict env /\ env !! "status" ≠ Some (PStr "SUCCESS")
        /\ text = "Failed to retrieve order amount").
Proof.
  intros Hlibrary Hpreview Hitem.
  assert (Hget : forall v key default e,
            py_get v key default = Raise e -> is_WalletPayException e = false).
  { intros v key default e. destruct v; simpl; intros [= <-]; reflexivity. }
  assert (Hpreview_of : forall v e, preview_of v = Raise e ->
                                    is_WalletPayException e = false).
  { intros v e. simpl. destruct (py_get v "data" PNone) as [e' | x] eqn:Hx; simpl.
    - intros [= <-]. eapply Hget, Hx.
    - apply Hpreview. }
  assert (Hlist_of : forall v e, list_of v = Raise e -> is_WalletPayException e = false).
  { intros v e. simpl. destruct (py_get v "data" _) as [e' | x] eqn:Hx; simpl.
    { intros [= <-]. eapply Hget, Hx. }
    destruct (py_get x "items" _) as [e' | y] eqn:Hy; simpl.
    { intros [= <-]. eapply Hget, Hy. }
    destruct (py_iter dict_order y) as [e' | l] eqn:Hl; simpl.
    { intros [= <-]. destruct y; simpl in Hl; now inversion Hl. }
    intros Hm. apply mapM_Raise in Hm as (done & z & rest & _ & _ & Hz).
    eapply Hitem, Hz. }
  assert (Hamount_of : forall v e, amount_of v = Raise e ->
                                   is_WalletPayException e = false).
  { intros v e. simpl. destruct (py_get v "data" _) as [e' | x] eqn:Hx; simpl.
    { intros [= <-]. eapply Hget, Hx. }
    destruct (py_get x "totalAmount" _) as [e' | y] eqn:Hy; simpl.
    { intros [= <-]. eapply Hget, Hy. }
    intros Hint. apply py_int_raises in Hint as [-> | [-> | ->]]; reflexivity. }
  unfold outcome, answered, sent_by.
  rewrite create_order_run, get_order_preview_run, get_order_list_run,
    get_order_amount_run. cbv zeta. simpl fst. simpl snd.
  split; [| split; [| split]]; intros Hout;
    eapply failure_type_origin in Hout as (env & Hnet & -> & Hstatus & ->);
    try solve [ eauto
              | reflexivity
              | discriminate
              | intros p t p' t' [= -> ->]; auto ];
    exists env; (split; [repeat constructor; exact Hnet | auto]).
Qed.

(** *** The whole body of [create_order] *)

(** X17: the body that [create_order] posts has no key besides the five
    fixed ones and the optional ones: it has five keys, and one more for
    each optional argument that is truthy. *)
Theorem create_order_body_has_no_other_key :
  exists (req : http_request) (body : gmap string pyval),
    sent_by create_order' net = [req]
    /\ req_json req = Some (PDict body)
    /\ (forall key : string,
          is_Some (body !! key) ->
          In key ["amount"; "description"; "externalId"; "timeoutSeconds";
                  "customerTelegramUserId"; "returnUrl"; "failReturnUrl";
                  "customData"])
    /\ size body =
       (5 + (if truthy return_url then 1 else 0)
          + (if truthy fail_return_url then 1 else 0)
          + (if truthy custom_data then 1 else 0))%nat.
Proof.
  eexists; eexists.
  split; [unfold sent_by; rewrite create_order_run; reflexivity |].
  split; [reflexivity |].
  unfold order_data.
  destruct (truthy return_url), (truthy fail_return_url), (truthy custom_data);
    (split; [| reflexivity]);
    intros key [v Hkey];
    repeat (apply lookup_insert_Some in Hkey as [[<- _] | [_ Hkey]];
            [simpl; repeat (solve [left; reflexivity] || right) |]);
    apply lookup_singleton_Some in Hkey as [<- _];
    simpl; repeat (solve [left; reflexivity] || right).
Qed.

(** *** Nothing of the request is compared with the response *)

(** X18: what an operation returns or raises depends on the answer of the
    server alone: two calls of the same operation that get the same answer
    have the same outcome, whatever the client, the order, the identifier or
    the page they asked for.  In particular the order that comes back is not
    checked against the identifier that was sent. *)
Theorem outcome_depends_on_the_answer_alone
    (self' : AsyncWalletPayAPI) (net' : network)
    (amount' currency_code' description' external_id' timeout_seconds'
     customer_telegram_user_id' return_url' fail_return_url' custom_data' : pyval)
    (order_id' : string) (offset' count' : Z) (o : http_outcome) :
  (answered create_order' net o ->
   answered (create_order OrderPreview self' amount' currency_code' description'
               external_id' timeout_seconds' customer_telegram_user_id' return_url'
               fail_return_url' custom_data') net' o ->
   outcome create_order' net =
   outcome (create_order OrderPreview self' amount' currency_code' description'
              external_id' timeout_seconds' customer_telegram_user_id' return_url'
              fail_return_url' custom_data') net')
  /\ (answered get_order_preview' net o ->
      answered (get_order_preview OrderPreview self' order_id') net' o ->
      outcome get_order_preview' net =
      outcome (get_order_preview OrderPreview self' order_id') net')
  /\ (answered get_order_list' net o ->
      answered (get_order_list OrderReconciliationItem dict_order self' offset' count')
        net' o ->
      outcome get_order_list' net =
      outcome (get_order_list OrderReconciliationItem dict_order self' offset' count') net')
  /\ (answered get_order_amount' net o ->
      answered (get_order_amount self') net' o ->
      outcome get_order_amount' net = outcome (get_order_amount self') net').
Proof.
  split; [| split; [| split]]; intros Hnet Hnet'.
  - rewrite (create_order_answered _ Hnet).
    eapply answered_one in Hnet';
      [| unfold sent_by; rewrite create_order_run; reflexivity].
    unfold outcome. rewrite create_order_run. cbv zeta. simpl snd. now rewrite Hnet'.
  - rewrite (get_order_preview_answered _ Hnet).
    eapply answered_one in Hnet';
      [| unfold sent_by; rewrite get_order_preview_run; reflexivity].
    unfold outcome. rewrite get_order_preview_run. cbv zeta. simpl snd. now rewrite Hnet'.
  - rewrite (get_order_list_answered _ Hnet).
    eapply answered_one in Hnet';
      [| unfold sent_by; rewrite get_order_list_run; reflexivity].
    unfold outcome. rewrite get_order_list_run. cbv zeta. simpl snd. now rewrite Hnet'.
  - rewrite (get_order_amount_answered _ Hnet).
    eapply answered_one in Hnet';
      [| unfold sent_by; rewrite get_order_amount_run; reflexivity].
    unfold outcome. rewrite get_order_amount_run. cbv zeta. simpl snd. now rewrite Hnet'.
Qed.

End OperationOutcomes.

(** ** Worked examples of the further properties *)

Lemma executor_returns_witness :
  sent_by (_make_request sample_client "GET" "reconciliation/order-amount" PNone)
    (sample_network 200 (PList [PInt 1])) =
  [wire_request sample_client "GET" "reconciliation/order-amount" PNone]
  /\ outcome (_make_request sample_client "GET" "reconciliation/order-amount" PNone)
       (sample_network 200 (PList [PInt 1])) = Ok (PList [PInt 1]).
Proof.
  split; [reflexivity |].
  apply (proj2 (executor_returns_exactly_the_200_body sample_client "GET"
                  "reconciliation/order-amount" PNone
                  (sample_network 200 (PList [PInt 1])) (PList [PInt 1]))).
  exists (wire_request sample_client "GET" "reconciliation/order-amount" PNone).
  split; reflexivity.
Defined.

Lemma library_errors_witness :
  In (wire_request sample_client "GET" "order/preview?id=7" PNone)
     (sent_by (_make_request sample_client "GET" "order/preview?id=7" PNone)
        (failing_network (ClientError "Cannot connect to host")))
  /\ outcome (_make_request sample_client "GET" "order/preview?id=7" PNone)
       (failing_network (ClientError "Cannot connect to host")) =
     Raise (WalletPayException (PStr "API request failed: Cannot connect to host"))
  /\ (forall description : string, OtherError "JSONDecodeError" <> ClientError description)
  /\ outcome (_make_request sample_client "GET" "order/preview?id=7" PNone)
       (failing_network (OtherError "JSONDecodeError")) =
     Raise (OtherError "JSONDecodeError").
Proof.
  assert (Hin : forall e,
            In (wire_request sample_client "GET" "order/preview?id=7" PNone)
              (sent_by (_make_request sample_client "GET" "order/preview?id=7" PNone)
                 (failing_network e)))
    by (intros e; unfold sent_by; rewrite _make_request_supported by auto;
        left; reflexivity).
  assert (Hother : forall description : string,
            OtherError "JSONDecodeError" <> ClientError description)
    by discriminate.
  split; [apply Hin |]. split; [| split; [exact Hother |]].
  - apply (proj1 (library_errors_are_wrapped_or_passed_on sample_client "GET"
                    "order/preview?id=7" PNone _ _ _ (Hin _) eq_refl)).
    reflexivity.
  - apply (proj2 (library_errors_are_wrapped_or_passed_on sample_client "GET"
                    "order/preview?id=7" PNone _ _ _ (Hin _) eq_refl)).
    exact Hother.
Defined.

Lemma order_list_url_witness :
  map req_url (sent_by (get_order_list keep_json enumerated_keys sample_client 20 (-5))
                 (sample_network 200 (PDict list_envelope))) =
  map req_url (sent_by (get_order_list keep_json enumerated_keys sample_client 20 (-5))
                 (sample_network 200 (PDict list_envelope)))
  /\ map req_url (sent_by (get_order_list keep_json enumerated_keys sample_client 20 (-5))
                    (sample_network 200 (PDict list_envelope))) =
     ["https://pay.wallet.tg/wpay/store-api/v1/reconciliation/order-list?offset=20&count=-5"]
  /\ 20 = 20 /\ -5 = -5.
Proof.
  split; [reflexivity |]. split; [reflexivity |].
  apply (order_list_url_determines_page keep_json enumerated_keys sample_client
           (sample_network 200 (PDict list_envelope)) 20 (-5) 20 (-5)).
  reflexivity.
Defined.

Lemma operations_non_200_witness :
  503 <> 200
  /\ amount_envelope !! "status" = Some (PStr "SUCCESS")
  /\ outcome (get_order_amount sample_client)
       (sample_network 503 (PDict amount_envelope)) =
     Raise (WalletPayException (PStr "Unknown error"))
  /\ outcome (create_order keep_json sample_client (PFloat 10.0) (PStr "USD") (PStr "desc")
                (PStr "ext-1") (PInt 600) (PStr "12345") PNone PNone PNone)
       (sample_network 400 (PDict failed_envelope)) =
     Raise (WalletPayException (PStr "bad request")).
Proof.
  assert (H503 : 503 <> 200) by lia.
  assert (H400 : 400 <> 200) by lia.
  split; [exact H503 |]. split; [reflexivity |]. split.
  - destruct (operations_pass_on_non_200 keep_json keep_json enumerated_keys sample_client
                (sample_network 503 (PDict amount_envelope))
                PNone PNone PNone PNone PNone PNone PNone PNone PNone "o1" 0 10
                503 amount_envelope H503) as (_ & _ & _ & Hamount).
    apply Hamount, sample_network_answered.
  - destruct (operations_pass_on_non_200 keep_json keep_json enumerated_keys sample_client
                (sample_network 400 (PDict failed_envelope))
                (PFloat 10.0) (PStr "USD") (PStr "desc") (PStr "ext-1") (PInt 600)
                (PStr "12345") PNone PNone PNone "o1" 0 10
                400 failed_envelope H400) as (Hcreate & _).
    apply Hcreate, sample_network_answered.
Defined.

Lemma failing_network_answered {A : Type} (m : io A) (e : py_exn) :
  answered m (failing_network e) (HttpRaises e).
Proof.
  apply Forall_forall. intros req _. reflexivity.
Qed.

Lemma operations_library_errors_witness :
  answered (get_order_list keep_json enumerated_keys sample_client 0 10)
    (failing_network (ClientError "Connection reset"))
    (HttpRaises (ClientError "Connection reset"))
  /\ outcome (get_order_list keep_json enumerated_keys sample_client 0 10)
       (failing_network (ClientError "Connection reset")) =
     Raise (WalletPayException (PStr "API request failed: Connection reset")).
Proof.
  split; [apply failing_network_answered |].
  destruct (operations_pass_on_library_errors keep_json keep_json enumerated_keys
              sample_client (failing_network (ClientError "Connection reset"))
              PNone PNone PNone PNone PNone PNone PNone PNone PNone "o1" 0 10
              (ClientError "Connection reset")) as (_ & _ & Hlist & _).
  apply Hlist, failing_network_answered.
Defined.

Lemma operations_need_an_object_witness :
  (forall env : gmap string pyval, PList [PInt 1] <> PDict env)
  /\ outcome (get_order_preview keep_json sample_client "o1")
       (sample_network 200 (PList [PInt 1])) = Raise AttributeError
  /\ outcome (get_order_preview keep_json sample_client "o1")
       (sample_network 502 (PList [PInt 1])) = Raise AttributeError.
Proof.
  assert (Hbody : forall env : gmap string pyval, PList [PInt 1] <> PDict env)
    by discriminate.
  split; [exact Hbody |]. split.
  - destruct (operations_need_an_object keep_json keep_json enumerated_keys
                sample_client (sample_network 200 (PList [PInt 1]))
                PNone PNone PNone PNone PNone PNone PNone PNone PNone "o1" 0 10
                200 (PList [PInt 1]) Hbody) as (_ & Hpreview & _).
    apply Hpreview, sample_network_answered.
  - destruct (operations_need_an_object keep_json keep_json enumerated_keys
                sample_client (sample_network 502 (PList [PInt 1]))
                PNone PNone PNone PNone PNone PNone PNone PNone PNone "o1" 0 10
                502 (PList [PInt 1]) Hbody) as (_ & Hpreview & _).
    apply Hpreview, sample_network_answered.
Defined.

Lemma order_preview_witness :
  preview_envelope !! "status" = Some (PStr "SUCCESS")
  /\ outcome (create_order needs_id sample_client (PFloat 10.0) (PStr "USD") (PStr "desc")
                (PStr "ext-1") (PInt 600) (PStr "12345") PNone PNone PNone)
       (sample_network 200 (PDict preview_envelope)) = Ok (PStr "o1")
  /\ bare_envelope !! "status" = Some (PStr "SUCCESS")
  /\ outcome (get_order_preview needs_id sample_client "o1")
       (sample_network 200 (PDict bare_envelope)) = needs_id PNone.
Proof.
  split; [reflexivity |]. split; [| split; [reflexivity |]].
  - destruct (order_preview_is_built_from_data needs_id sample_client
                (sample_network 200 (PDict preview_envelope))
                (PFloat 10.0) (PStr "USD") (PStr "desc") (PStr "ext-1") (PInt 600)
                (PStr "12345") PNone PNone PNone "o1" preview_envelope eq_refl)
      as (Hcreate & _).
    rewrite Hcreate by apply sample_network_answered. reflexivity.
  - destruct (order_preview_is_built_from_data needs_id sample_client
                (sample_network 200 (PDict bare_envelope))
                PNone PNone PNone PNone PNone PNone PNone PNone PNone "o1"
                bare_envelope eq_refl)
      as (_ & Hpreview).
    rewrite Hpreview by apply sample_network_answered. reflexivity.
Defined.

Lemma order_list_positional_witness :
  list_envelope !! "status" = Some (PStr "SUCCESS")
  /\ outcome (get_order_list needs_id enumerated_keys sample_client 0 10)
       (sample_network 200 (PDict list_envelope)) = Ok [PInt 1; PInt 2]
  /\ length [PInt 1; PInt 2] =
     length [PDict {[ "id" := PInt 1 ]}; PDict ({[ "id" := PInt 2 ]} : gmap string pyval)].
Proof.
  split; [reflexivity |]. split; [reflexivity |].
  apply (proj1 (order_list_is_positional needs_id enumerated_keys sample_client
                  (sample_network 200 (PDict list_envelope)) 0 10 list_envelope
                  {[ "items" := PList [PDict {[ "id" := PInt 1 ]};
                                       PDict {[ "id" := PInt 2 ]}] ]}
                  [PDict {[ "id" := PInt 1 ]}; PDict {[ "id" := PInt 2 ]}]
                  (sample_network_answered _ _ _) eq_refl eq_refl eq_refl
                  [PInt 1; PInt 2])).
  reflexivity.
Defined.

Lemma order_list_stops_witness :
  mixed_envelope !! "status" = Some (PStr "SUCCESS")
  /\ Forall (fun y => exists o, needs_id y = Ok o) [PDict {[ "id" := PInt 1 ]}]
  /\ needs_id (PDict {[ "name" := PStr "x" ]}) = Raise (OtherError "KeyError: 'id'")
  /\ outcome (get_order_list needs_id enumerated_keys sample_client 0 10)
       (sample_network 200 (PDict mixed_envelope)) =
     Raise (OtherError "KeyError: 'id'").
Proof.
  assert (Hbuilt : Forall (fun y => exists o, needs_id y = Ok o)
                     [PDict {[ "id" := PInt 1 ]}])
    by (repeat constructor; exists (PInt 1); reflexivity).
  split; [reflexivity |]. split; [exact Hbuilt |]. split; [reflexivity |].
  apply (order_list_stops_at_first_rejected_item needs_id enumerated_keys sample_client
           (sample_network 200 (PDict mixed_envelope)) 0 10 mixed_envelope
           {[ "items" := PList [PDict {[ "id" := PInt 1 ]};
                                PDict {[ "name" := PStr "x" ]};
                                PDict {[ "id" := PInt 3 ]}] ]}
           [PDict {[ "id" := PInt 1 ]}] (PDict {[ "name" := PStr "x" ]})
           [PDict {[ "id" := PInt 3 ]}] (OtherError "KeyError: 'id'")
           (sample_network_answered _ _ _) eq_refl eq_refl eq_refl Hbuilt eq_refl).
Defined.

Lemma order_list_items_witness :
  null_items_envelope !! "status" = Some (PStr "SUCCESS")
  /\ null_items_envelope !! "data" = Some (PDict {[ "items" := PNone ]})
  /\ outcome (get_order_list keep_json enumerated_keys sample_client 0 10)
       (sample_network 200 (PDict null_items_envelope)) = Raise TypeError.
Proof.
  split; [reflexivity |]. split; [reflexivity |].
  apply (order_list_items_must_be_iterable keep_json enumerated_keys sample_client
           (sample_network 200 (PDict null_items_envelope)) 0 10 null_items_envelope
           {[ "items" := PNone ]} PNone
           (sample_network_answered _ _ _) eq_refl eq_refl eq_refl).
  left. reflexivity.
Defined.

Lemma order_amount_builtin_errors_witness :
  fraction_envelope !! "status" = Some (PStr "SUCCESS")
  /\ ((exists n : Z,
         outcome (get_order_amount sample_client)
           (sample_network 200 (PDict fraction_envelope)) = Ok n)
      \/ (exists e : py_exn,
            outcome (get_order_amount sample_client)
              (sample_network 200 (PDict fraction_envelope)) = Raise e
            /\ is_WalletPayException e = false
            /\ (e = AttributeError \/ e = TypeError \/ e = ValueError
                \/ e = OverflowError))).
Proof.
  split; [reflexivity |].
  apply (order_amount_success_raises_only_builtin_errors sample_client
           (sample_network 200 (PDict fraction_envelope)) fraction_envelope
           (sample_network_answered _ _ _) eq_refl).
Defined.


Lemma order_amount_number_witness :
  float_envelope !! "data" = Some (PDict {[ "totalAmount" := PFloat 42.5 ]})
  /\ Prim2SF 42.5 = S754_finite false 5981343255101440 (-47)
  /\ exists r : Z,
       outcome (get_order_amount sample_client)
         (sample_network 200 (PDict float_envelope)) = Ok r
       /\ 0 <= r
       /\ Z.abs r * 2 ^ 47 <= 5981343255101440 < (Z.abs r + 1) * 2 ^ 47.
Proof.
  assert (Hf : Prim2SF 42.5 = S754_finite false 5981343255101440 (-47))
    by (vm_compute; reflexivity).
  split; [reflexivity |]. split; [exact Hf |].
  destruct (proj2 (order_amount_of_a_number sample_client
                     (sample_network 200 (PDict float_envelope)) float_envelope
                     {[ "totalAmount" := PFloat 42.5 ]} (PFloat 42.5)
                     (sample_network_answered _ _ _) eq_refl eq_refl eq_refl)
              42.5%float eq_refl)
    as (_ & _ & Hfinite).
  destruct (Hfinite false 5981343255101440%positive (-47) Hf)
    as (r & Hout & Hsign & _ & Hbounds).
  exists r. split; [exact Hout |]. split; [exact Hsign |].
  apply Hbounds. lia.
Defined.

Lemma operation_failures_witness :
  (forall req e, sample_network 200 (PDict failed_envelope) req = HttpRaises e ->
                 is_WalletPayException e = false)
  /\ (forall v e, keep_json v = Raise e -> is_WalletPayException e = false)
  /\ outcome (get_order_amount sample_client)
       (sample_network 200 (PDict failed_envelope)) =
     Raise (GetOrderAmountException (PDict failed_envelope)
              "Failed to retrieve order amount")
  /\ exists env : gmap string pyval,
       answered (get_order_amount sample_client)
         (sample_network 200 (PDict failed_envelope)) (HttpResponse 200 (PDict env))
       /\ PDict failed_envelope = PDict env
       /\ env !! "status" ≠ Some (PStr "SUCCESS")
       /\ "Failed to retrieve order amount" = "Failed to retrieve order amount".
Proof.
  assert (Hlibrary : forall req e,
            sample_network 200 (PDict failed_envelope) req = HttpRaises e ->
            is_WalletPayException e = false) by discriminate.
  assert (Hkeep : forall v e, keep_json v = Raise e -> is_WalletPayException e = false)
    by discriminate.
  split; [exact Hlibrary |]. split; [exact Hkeep |]. split; [reflexivity |].
  destruct (operation_failures_come_from_200_envelopes keep_json keep_json
              enumerated_keys sample_client (sample_network 200 (PDict failed_envelope))
              PNone PNone PNone PNone PNone PNone PNone PNone PNone "o1" 0 10
              (PDict failed_envelope) "Failed to retrieve order amount"
              Hlibrary Hkeep Hkeep) as (_ & _ & _ & Hamount).
  apply Hamount. reflexivity.
Defined.

Lemma outcome_answer_alone_witness :
  outcome (get_order_preview keep_json sample_client "o1")
    (sample_network 200 (PDict preview_envelope)) =
  outcome (get_order_preview keep_json (__init__ "other key") "another order")
    (sample_network 200 (PDict preview_envelope)).
Proof.
  destruct (outcome_depends_on_the_answer_alone keep_json keep_json enumerated_keys
              sample_client (sample_network 200 (PDict preview_envelope))
              PNone PNone PNone PNone PNone PNone PNone PNone PNone "o1" 0 10
              (__init__ "other key") (sample_network 200 (PDict preview_envelope))
              PNone PNone PNone PNone PNone PNone PNone PNone PNone "another order" 5 5
              (HttpResponse 200 (PDict preview_envelope)))
    as (_ & Hpreview & _).
  apply Hpreview; apply sample_network_answered.
Defined.

Lemma create_order_keys_witness :
  exists (req : http_request) (body : gmap string pyval),
    sent_by (create_order keep_json sample_client (PFloat 10.0) (PStr "USD")
               (PStr "desc") (PStr "ext-1") (PInt 600) (PStr "12345")
               (PStr "https://shop.example/ok") PNone (PDict ∅))
      (sample_network 200 (PDict preview_envelope)) = [req]
    /\ req_json req = Some (PDict body)
    /\ size body = 6%nat
    /\ body !! "webhook" = None.
Proof.
  destruct (create_order_body_has_no_other_key keep_json sample_client
              (sample_network 200 (PDict preview_envelope))
              (PFloat 10.0) (PStr "USD") (PStr "desc") (PStr "ext-1") (PInt 600)
              (PStr "12345") (PStr "https://shop.example/ok") PNone (PDict ∅))
    as (req & body & Hsent & Hjson & Hkeys & Hsize).
  exists req, body. split; [exact Hsent |]. split; [exact Hjson |].
  split; [exact Hsize |].
  destruct (body !! "webhook") as [v |] eqn:Hwebhook; [| reflexivity].
  exfalso. specialize (Hkeys "webhook" (ex_intro _ v Hwebhook)).
  simpl in Hkeys. intuition discriminate.
Defined.
